(** * SCM version resolution of autobuild ([autobuild/scm/git.py])

    A shallow embedding of the git version resolver: the repository-root
    search [_find_repo_dir], the [git describe] parser [_parse_describe],
    the [Git] handle with its accessors, and the entry points [new_client]
    and [get_version].

    Conventions.
    - A Python [str] is a list of characters ([pystr]); only characters of
      the ASCII range are modelled.
    - A Python [int] is a [Z]; the interpreter's limit on the number of
      digits that [int] and [str] convert is not modelled.
    - An exception is a value of [Exn]; a call that may raise returns
      [Exn + A].
    - Calls that reach the host (the [git] binary, the file system, the
      environment, the clock) are answered by a [Host] record and are
      recorded, in order, in a trace of [Event]s.
    - The probes of the host ([has_cmd], [is_env_disabled], [Path.is_dir])
      are modelled as answering a boolean; an [OSError] that [Path.is_dir]
      can raise, for instance on a name that is too long, is outside the
      model, and every statement is about what follows from the answers.
    - The [log.debug] and [log.warning] calls have no bearing on any result
      and are left out. *)

From Stdlib Require Import Ascii String ZArith Lia Bool Arith List.
From Stdlib Require DecimalZ DecimalPos.
From Equations Require Import Equations.
Import ListNotations.

Set Implicit Arguments.
Local Open Scope char_scope.

(** ** Python strings *)

Definition pystr : Type := list ascii.

(** String literals are written [lit "text"]. *)
Definition lit (x : string) : pystr := list_ascii_of_string x.

Module Py.

(** [s.startswith(prefix)] *)
Fixpoint startswith (s prefix : pystr) : bool :=
  match prefix, s with
  | [], _ => true
  | _ :: _, [] => false
  | a :: prefix', b :: s' => Ascii.eqb a b && startswith s' prefix'
  end.

(** [s.endswith(suffix)] *)
Definition endswith (s suffix : pystr) : bool :=
  startswith (List.rev s) (List.rev suffix).

(** [xs[:-n]] for a positive [n]. *)
Definition drop_last {A} (n : nat) (xs : list A) : list A :=
  firstn (length xs - n) xs.

(** [xs[-n:]] for a positive [n]. *)
Definition take_last {A} (n : nat) (xs : list A) : list A :=
  skipn (length xs - n) xs.

(** [xs[1:]] *)
Definition drop_first {A} (xs : list A) : list A := tl xs.

Fixpoint dropwhile (p : ascii -> bool) (s : pystr) : pystr :=
  match s with
  | [] => []
  | c :: s' => if p c then dropwhile p s' else s
  end.

(** [s.lstrip(chars)] *)
Definition lstrip (s chars : pystr) : pystr :=
  dropwhile (fun c => existsb (Ascii.eqb c) chars) s.

(** The text before and after the first occurrence of [sep]. *)
Fixpoint partition (sep : ascii) (s : pystr) : option (pystr * pystr) :=
  match s with
  | [] => None
  | c :: s' =>
      if Ascii.eqb c sep then Some ([], s')
      else match partition sep s' with
           | Some (a, b) => Some (c :: a, b)
           | None => None
           end
  end.

(** [s.split(sep, maxsplit)] for a one-character [sep]. *)
Fixpoint split (sep : ascii) (maxsplit : nat) (s : pystr) : list pystr :=
  match maxsplit with
  | O => [s]
  | S n =>
      match partition sep s with
      | None => [s]
      | Some (a, b) => a :: split sep n b
      end
  end.

(** [s.rsplit(sep, maxsplit)]: as [split], scanning from the right. *)
Definition rsplit (sep : ascii) (maxsplit : nat) (s : pystr) : list pystr :=
  List.rev (map (@List.rev ascii) (split sep maxsplit (List.rev s))).

(** The white space that [int] skips at both ends of its argument: tab,
    line feed, vertical tab, form feed, carriage return and space. *)
Definition is_int_space (c : ascii) : bool :=
  let n := nat_of_ascii c in
  ((9 <=? n) && (n <=? 13) || (n =? 32))%nat.

Definition strip (s : pystr) : pystr :=
  List.rev (dropwhile is_int_space (List.rev (dropwhile is_int_space s))).

Import Corelib.Init.Decimal (uint, Nil, D0, D1, D2, D3, D4, D5, D6, D7, D8, D9).

Definition digit (c : ascii) : option (uint -> uint) :=
  match c with
  | "0" => Some D0 | "1" => Some D1 | "2" => Some D2 | "3" => Some D3
  | "4" => Some D4 | "5" => Some D5 | "6" => Some D6 | "7" => Some D7
  | "8" => Some D8 | "9" => Some D9
  | _ => None
  end.

Definition isdigit (c : ascii) : bool :=
  match digit c with Some _ => true | None => false end.

(** A run of decimal digits in which single underscores may separate
    digits, as [int] accepts it. *)
Fixpoint int_digits (s : pystr) : option uint :=
  match s with
  | [] => None
  | c :: rest =>
      match digit c with
      | None => None
      | Some d =>
          match rest with
          | [] => Some (d Nil)
          | "_" :: rest' => option_map d (int_digits rest')
          | _ :: _ => option_map d (int_digits rest)
          end
      end
  end.

(** [int(s)]: [None] stands for the [ValueError] it raises. *)
Definition int (s : pystr) : option Z :=
  match strip s with
  | "+" :: ds => option_map Z.of_uint (int_digits ds)
  | "-" :: ds => option_map (fun u => Z.opp (Z.of_uint u)) (int_digits ds)
  | ds => option_map Z.of_uint (int_digits ds)
  end.

Fixpoint uint_str (u : uint) : pystr :=
  match u with
  | Nil => []
  | D0 u' => "0" :: uint_str u' | D1 u' => "1" :: uint_str u'
  | D2 u' => "2" :: uint_str u' | D3 u' => "3" :: uint_str u'
  | D4 u' => "4" :: uint_str u' | D5 u' => "5" :: uint_str u'
  | D6 u' => "6" :: uint_str u' | D7 u' => "7" :: uint_str u'
  | D8 u' => "8" :: uint_str u' | D9 u' => "9" :: uint_str u'
  end.

(** [str(z)] for an [int]. *)
Definition int_str (z : Z) : pystr :=
  match Z.to_int z with
  | Decimal.Pos u => uint_str u
  | Decimal.Neg u => "-" :: uint_str u
  end.

End Py.

(** ** Exceptions *)

Inductive Exn : Type :=
| ValueError
| CommandError (diagnostic : pystr).

(** ** Semantic versions ([autobuild/scm/base.py]) *)

(** Modelled from the spec: the [Semver] value type of
    [autobuild/scm/base.py], with the attributes major, minor, patch and
    an optional pre-release label. *)
Record Semver : Type := mkSemver {
  major : Z;
  minor : Z;
  patch : Z;
  prerelease : option pystr
}.

(** Modelled from the spec: the [next] property of [Semver], "a new
    instance with patch incremented by one and pre-release cleared". *)
Definition Semver_next (v : Semver) : Semver :=
  {| major := major v; minor := minor v; patch := patch v + 1;
     prerelease := None |}.

(** ** Parsed descriptors *)

(** The [version] field of [GitMeta] has type [Semver | str]. *)
Inductive Version : Type :=
| VSemver (v : Semver)
| VRaw (s : pystr).

Record GitMeta : Type := mkGitMeta {
  dirty : bool;
  distance : Z;
  commit : pystr;
  version : Version
}.

(** ** The host: file system, environment, processes, clock *)

(** The operations of [pathlib.Path] that the resolver uses. *)
Record PathLib (Path : Type) : Type := {
  Path_of : pystr -> Path;            (* [Path(root)] *)
  Path_str : Path -> pystr;           (* [str(p)] *)
  joinpath : Path -> pystr -> Path;   (* [p / name] *)
  parent : Path -> Path;              (* [p.parent] *)
  Path_eqb : Path -> Path -> bool     (* [p == q] *)
}.

(** The result of a finished process, of which only [stdout] is read. *)
Record CompletedProcess : Type := { stdout : pystr }.

(** What the host answers. [has_cmd], [is_env_disabled] and [cmd] are the
    helpers of [autobuild/common.py], [date] is the helper of
    [autobuild/scm/base.py]. The first two answer a boolean; [cmd] raises
    when the process fails. *)
Record Host (Path : Type) : Type := {
  has_cmd : pystr -> bool;
  is_env_disabled : pystr -> bool;
  is_dir : Path -> bool;
  cmd : list pystr -> Exn + CompletedProcess;
  date : pystr
}.

(** The calls that reach the host. *)
Inductive Event (Path : Type) : Type :=
| EvHasCmd (name : pystr)
| EvEnv (key : pystr)
| EvIsDir (p : Path)
| EvCmd (argv : list pystr)
| EvDate.

Arguments EvHasCmd {Path} name.
Arguments EvEnv {Path} key.
Arguments EvIsDir {Path} p.
Arguments EvCmd {Path} argv.
Arguments EvDate {Path}.

(** A computation: the calls it made, in order, and then either the
    exception it raised or its result. *)
Definition M (Path A : Type) : Type := list (Event Path) * (Exn + A).

Definition ret {Path A} (a : A) : M Path A := ([], inr a).

Definition bind {Path A B} (m : M Path A) (k : A -> M Path B) : M Path B :=
  match m with
  | (t, inl e) => (t, inl e)
  | (t, inr a) => let (t', r) := k a in (t ++ t', r)
  end.

Definition lift {Path A} (r : Exn + A) : M Path A := ([], r).

Notation "x <- m ;; k" := (bind m (fun x => k))
  (at level 61, m at next level, right associativity).

Definition trace {Path A} (m : M Path A) : list (Event Path) := fst m.
Definition outcome {Path A} (m : M Path A) : Exn + A := snd m.

(** ** The search bound *)

Definition MAX_GIT_SEARCH_DEPTH : Z := 20.

(** The number of levels left before [level] reaches the maximum: the
    measure that decreases along the upward search. *)
Definition levels_left (level : Z) : nat :=
  Z.to_nat (MAX_GIT_SEARCH_DEPTH - level).

Arguments levels_left level : simpl never.

(** ** A concrete host, for running the resolver on examples *)

(** Modelled from the spec: [Semver.parse] and [Semver.__str__] of
    [autobuild/scm/base.py], for the grammar [major.minor.patch] with an
    optional [-prerelease] label. *)
Module SemverText.

Definition number (s : pystr) : option Z :=
  if forallb Py.isdigit s then Py.int s else None.

Definition parse (s : pystr) : option Semver :=
  let (core, label) :=
    match Py.partition "-" s with
    | Some (a, b) => (a, Some b)
    | None => (s, None)
    end in
  match Py.split "." 3 core with
  | [a; b; c] =>
      match number a, number b, number c with
      | Some x, Some y, Some z =>
          Some {| major := x; minor := y; patch := z; prerelease := label |}
      | _, _, _ => None
      end
  | _ => None
  end.

Definition str (v : Semver) : pystr :=
  Py.int_str (major v) ++ lit "." ++ Py.int_str (minor v) ++ lit "."
    ++ Py.int_str (patch v)
    ++ match prerelease v with
       | Some l => lit "-" ++ l
       | None => []
       end.

End SemverText.

(** Absolute POSIX paths as the list of their components below [/]. *)
Module Posix.

Definition Path : Type := list pystr.

Definition of_str (s : pystr) : Path :=
  filter (fun c => match c with [] => false | _ :: _ => true end)
         (Py.split "/" (length s) s).

Fixpoint to_str (p : Path) : pystr :=
  match p with
  | [] => []
  | c :: p' => "/" :: c ++ to_str p'
  end.

Definition lib : PathLib Path := {|
  Path_of := of_str;
  Path_str := fun p => match p with [] => lit "/" | _ => to_str p end;
  joinpath := fun p name => p ++ [name];
  parent := fun p => removelast p;
  Path_eqb := fun p q =>
    if list_eq_dec (list_eq_dec ascii_dec) p q then true else false
|}.

(** A host with [git] installed, whose only [.git] directory is the one
    at [marker], and whose [git describe] prints [described]. *)
Definition host (search_off : bool) (marker : Path) (described : pystr)
  : Host Path := {|
  has_cmd := fun _ => true;
  is_env_disabled := fun _ => search_off;
  is_dir := fun p => Path_eqb lib p (marker ++ [lit ".git"]);
  cmd := fun _ => inr {| stdout := described |};
  date := lit "20250101"
|}.

(** The same host without [git]. *)
Definition bare_host (marker : Path) : Host Path := {|
  has_cmd := fun _ => false;
  is_env_disabled := fun _ => false;
  is_dir := fun p => Path_eqb lib p (marker ++ [lit ".git"]);
  cmd := fun _ => inl (CommandError (lit "git: command not found"));
  date := lit "20250101"
|}.

(** The directory [/srv/pkg], and the directory [/1/2/.../n]. *)
Definition repo : Path := [lit "srv"; lit "pkg"].

Definition nested (n : nat) : Path :=
  map (fun k => Py.int_str (Z.of_nat k)) (seq 1 n).

End Posix.

(** ** The command line driver ([autobuild/autobuild_main.py]) *)

Module Main.

(** What the driver raises or lets through: [AutobuildError] of
    [autobuild/common.py] with its message, [ImportError], anything else. *)
Inductive Raised : Type :=
| AutobuildError (message : pystr)
| ImportError
| OtherError (what : pystr).

Definition AUTOBUILD_LOGLEVEL : pystr := lit "AUTOBUILD_LOGLEVEL".

(** The levels of [logging]. *)
Definition ERROR : Z := 40.
Definition WARNING : Z := 30.
Definition INFO : Z := 20.
Definition DEBUG : Z := 10.

(** [a == b] and [x in xs] on strings. *)
Definition str_eqb (a b : pystr) : bool :=
  if list_eq_dec ascii_dec a b then true else false.

Definition str_in (x : pystr) (xs : list pystr) : bool :=
  existsb (str_eqb x) xs.

(** [os.environ], and [os.environ[key] = value]. *)
Definition Environ : Type := pystr -> option pystr.

Definition setitem (environ : Environ) (key value : pystr) : Environ :=
  fun k => if str_eqb k key then Some value else environ k.

(** The state that the two log-level methods touch: the environment of
    the process and the level of the logger they are given. *)
Record Process : Type := {
  environ : Environ;
  logger_level : Z
}.

Definition get_default_loglevel_from_environment (environ : Environ)
  : Raised + Z :=
  let environment_level :=
    match environ AUTOBUILD_LOGLEVEL with
    | Some v => v
    | None => []
    end in
  if str_in environment_level [lit "--quiet"; lit "-q"] then inr ERROR
  else if str_eqb environment_level [] then inr WARNING
  else if str_in environment_level [lit "--verbose"; lit "-v"] then inr INFO
  else if str_in environment_level [lit "--debug"; lit "-d"] then inr DEBUG
  else inl (AutobuildError (lit "invalid " ++ AUTOBUILD_LOGLEVEL
                              ++ lit " value '" ++ environment_level
                              ++ lit "'")).

(** The dictionary [level_map] of [set_recursive_loglevel]. *)
Definition level_map : list (Z * pystr) :=
  [(ERROR, lit "--quiet"); (WARNING, []); (INFO, lit "--verbose");
   (DEBUG, lit "--debug")].

Fixpoint lookup (level : Z) (m : list (Z * pystr)) : option pystr :=
  match m with
  | [] => None
  | (k, v) :: m' => if (level =? k)%Z then Some v else lookup level m'
  end.

(** [set_recursive_loglevel]: the level of the logger is set first, then
    the environment, or the error is raised. [getLevelName] is
    [logging.getLevelName]. *)
Definition set_recursive_loglevel (getLevelName : Z -> pystr)
           (st : Process) (level : Z) : Process * (Raised + unit) :=
  let st := {| environ := environ st; logger_level := level |} in
  match lookup level level_map with
  | Some spelling =>
      ({| environ := setitem (environ st) AUTOBUILD_LOGLEVEL spelling;
          logger_level := logger_level st |}, inr tt)
  | None =>
      (st, inl (AutobuildError (lit "invalid effective log level "
                                  ++ getLevelName level)))
  end.

(** The local [loglevel] of [Autobuild.main]: [logging.INFO] on a dry run
    unless debug output was asked for, the parsed level otherwise. *)
Definition loglevel (dry_run : bool) (logging_level : Z) : Z :=
  if dry_run && negb (logging_level =? DEBUG)%Z then INFO
  else logging_level.

(** [files.remove(x)]: the first occurrence goes. *)
Fixpoint list_remove (x : pystr) (files : list pystr) : list pystr :=
  match files with
  | [] => []
  | f :: files' => if str_eqb f x then files' else f :: list_remove x files'
  end.

(** [Autobuild.listdir], over what [os.listdir] answers. *)
Definition listdir (os_listdir : pystr -> Raised + list pystr) (dir : pystr)
  : Raised + list pystr :=
  match os_listdir dir with
  | inl e => inl e
  | inr files =>
      if str_in (lit "AutobuildTool_test.py") files
      then inr (list_remove (lit "AutobuildTool_test.py") files)
      else inr files
  end.

Section Tools.

(** Tool modules and tool instances. [import_module name] is
    [importlib.import_module(name, package="autobuild")];
    [has_AutobuildTool m] is [hasattr(m, "AutobuildTool")];
    [register_tool] instantiates the tool of a module and registers its
    sub-parser, [add_arguments] adds the common options to that
    sub-parser: both are calls into the tool and into [argparse] that
    return or raise. *)
Variables ToolModule Tool : Type.
Variable import_module : pystr -> Raised + ToolModule.
Variable has_AutobuildTool : ToolModule -> bool.
Variable register_tool : ToolModule -> Raised + Tool.
Variable add_arguments : Tool -> Raised + unit.

(** [try_to_import_tool]: the new [tools_list], and the instance, [None]
    for [-1], or what was raised. An [ImportError] of the import or of the
    registration is caught. *)
Definition try_to_import_tool (tool : pystr) (tools_list : list ToolModule)
  : list ToolModule * (Raised + option Tool) :=
  match import_module (lit ".autobuild_tool_" ++ tool) with
  | inl ImportError => (tools_list, inr None)
  | inl e => (tools_list, inl e)
  | inr possible_tool_module =>
      if has_AutobuildTool possible_tool_module then
        let tools_list := tools_list ++ [possible_tool_module] in
        match register_tool possible_tool_module with
        | inl ImportError => (tools_list, inr None)
        | inl e => (tools_list, inl e)
        | inr instance => (tools_list, inr (Some instance))
        end
      else (tools_list, inr None)
  end.

(** The loop of [Autobuild.main] that sets [tool_to_run]: the first
    argument that does not start with a hyphen is tried, and the loop
    ends there. *)
Fixpoint tool_to_run (args_in : list pystr) (tools_list : list ToolModule)
  : list ToolModule * (Raised + option Tool) :=
  match args_in with
  | [] => (tools_list, inr None)
  | arg :: rest =>
      if negb (Py.startswith arg (lit "-")) then
        match try_to_import_tool arg tools_list with
        | (tools_list, inr (Some instance)) =>
            match add_arguments instance with
            | inl e => (tools_list, inl e)
            | inr _ => (tools_list, inr (Some instance))
            end
        | other => other
        end
      else tool_to_run rest tools_list
  end.

End Tools.

(** A directory of tools for the examples: only [build] imports, and its
    module has the tool class. *)
Definition sample_import (name : pystr) : Raised + pystr :=
  if str_eqb name (lit ".autobuild_tool_build") then inr (lit "build")
  else inl ImportError.

Definition sample_environ : Environ :=
  fun k => if str_eqb k AUTOBUILD_LOGLEVEL then Some (lit "-q") else None.

End Main.

(** ** Vocabulary of the statements: descriptor texts *)

Definition hyphen_free (s : pystr) : Prop := ~ In "-" s.

(** The text [tag-distance-commit], followed by [-dirty] when [is_dirty]. *)
Definition describe_text (tag dist com : pystr) (is_dirty : bool) : pystr :=
  tag ++ "-" :: dist ++ "-" :: com ++ (if is_dirty then lit "-dirty" else []).

(** The text after the last hyphen of a tag (the whole tag when it has no
    hyphen). *)
Definition after_last_hyphen (tag : pystr) : pystr :=
  match Py.partition "-" (List.rev tag) with
  | Some (a, _) => List.rev a
  | None => tag
  end.






Ltac no_hyphen :=
  unfold hyphen_free; cbv;
  let H := fresh in
  intros H; repeat (destruct H as [H|H]; [discriminate H|]); exact H.

(** ** The resolver *)

Record Git (Path : Type) : Type := { repo_dir : option Path }.

Section Resolver.

(** [Semver.parse] and [Semver.__str__] of [autobuild/scm/base.py]. The
    first returns a [Semver] or [None]; the grammar and the layout of the
    text are left open. *)
Variable Semver_parse : pystr -> option Semver.
Variable Semver_str : Semver -> pystr.

Variable Path : Type.
Variable pathlib : PathLib Path.
Variable host : Host Path.

Local Abbreviation M := (M Path).

Definition call_has_cmd (name : pystr) : M bool :=
  ([EvHasCmd name], inr (has_cmd host name)).

Definition call_is_env_disabled (key : pystr) : M bool :=
  ([EvEnv key], inr (is_env_disabled host key)).

Definition call_is_dir (p : Path) : M bool :=
  ([EvIsDir p], inr (is_dir host p)).

Definition call_cmd (argv : list pystr) : M CompletedProcess :=
  ([EvCmd argv], cmd host argv).

Definition call_date : M pystr := ([EvDate], inr (date host)).

(** The upward search; [level] counts the parents already taken. It is
    defined by recursion on the number of levels left below the maximum. *)
Equations? _find_repo_dir (start : Path) (level : Z) : M (option Path)
  by wf (levels_left level) lt :=
_find_repo_dir start level with Z_ge_dec level MAX_GIT_SEARCH_DEPTH := {
  | left _ => ret None
  | right _ =>
      found <- call_is_dir (joinpath pathlib start (lit ".git")) ;;
      if found then ret (Some start) else
      off <- call_is_env_disabled (lit "AUTOBUILD_SCM_SEARCH") ;;
      if off then ret None else
      if Path_eqb pathlib (parent pathlib start) start then ret None else
      _find_repo_dir (parent pathlib start) (level + 1)
}.
Proof. unfold levels_left, MAX_GIT_SEARCH_DEPTH in *. lia. Qed.

(** The parser of the output of [git describe]. Unpacking anything but
    three parts raises [ValueError], and so does [int] on the distance. *)
Definition _parse_describe (describe : pystr) : Exn + GitMeta :=
  let dirty := Py.endswith describe (lit "-dirty") in
  let describe := if dirty then Py.drop_last 6 describe else describe in
  match Py.take_last 3 (Py.rsplit "-" (if dirty then 3 else 2) describe) with
  | [raw_tag; distance; commit] =>
      match Py.int distance with
      | None => inl ValueError
      | Some distance =>
          inr {| dirty := dirty;
                 distance := distance;
                 commit := Py.drop_first commit;
                 version := match Semver_parse raw_tag with
                            | Some v => VSemver v
                            | None => VRaw (Py.lstrip raw_tag (lit "v"))
                            end |}
      end
  | _ => inl ValueError
  end.

(** [Git.__init__] *)
Definition Git_init (root : pystr) : M (Git Path) :=
  d <- _find_repo_dir (Path_of pathlib root) 0 ;;
  ret {| repo_dir := d |}.

(** [str(self.repo_dir)] *)
Definition repo_dir_str (self : Git Path) : pystr :=
  match repo_dir self with
  | Some p => Path_str pathlib p
  | None => lit "None"
  end.

Definition Git__git (self : Git Path) (args : list pystr)
  : M CompletedProcess :=
  call_cmd (lit "git" :: lit "-C" :: repo_dir_str self :: args).

Definition describe_args : list pystr :=
  [lit "describe"; lit "--dirty"; lit "--tags"; lit "--long";
   lit "--match"; lit "*[0-9]*"].

Definition Git_describe (self : Git Path) : M pystr :=
  p <- Git__git self describe_args ;;
  ret (stdout p).

(** In the accessors, [self.repo_dir] is tested for truth; a [Path] is
    always true, so the test separates a path from [None]. *)
Definition Git_revision (self : Git Path) : M (option pystr) :=
  match repo_dir self with
  | Some _ =>
      p <- Git__git self [lit "rev-parse"; lit "HEAD"] ;;
      ret (Some (stdout p))
  | None => ret None
  end.

Definition Git_url (self : Git Path) : M (option pystr) :=
  match repo_dir self with
  | Some _ =>
      p <- Git__git self [lit "remote"; lit "get-url"; lit "origin"] ;;
      ret (Some (stdout p))
  | None => ret None
  end.

Definition Git_branch (self : Git Path) : M (option pystr) :=
  match repo_dir self with
  | Some _ =>
      p <- Git__git self [lit "rev-parse"; lit "--abbrev-ref"; lit "HEAD"] ;;
      ret (Some (stdout p))
  | None => ret None
  end.

(** [str(v)] for a [Semver | str]. *)
Definition Version_str (v : Version) : pystr :=
  match v with
  | VSemver sv => Semver_str sv
  | VRaw s => s
  end.

(** The local [next_version] of [Git.version]:
    [meta.version.next] for a [Semver], [meta.version] itself otherwise. *)
Definition next_version (v : Version) : Version :=
  match v with
  | VSemver sv => VSemver (Semver_next sv)
  | VRaw s => VRaw s
  end.

Definition Git_version (self : Git Path) : M (option pystr) :=
  match repo_dir self with
  | None => ret None
  | Some _ =>
      d <- Git_describe self ;;
      meta <- lift (_parse_describe d) ;;
      let next_version := next_version (version meta) in
      if dirty meta then
        today <- call_date ;;
        ret (Some (Version_str next_version ++ lit "-dev"
                     ++ Py.int_str (distance meta) ++ lit ".g"
                     ++ commit meta ++ lit ".d" ++ today))
      else if negb (distance meta =? 0)%Z then
        ret (Some (Version_str next_version ++ lit "-dev"
                     ++ Py.int_str (distance meta) ++ lit ".g"
                     ++ commit meta))
      else
        ret (Some (Version_str (version meta)))
  end.

Definition new_client (root : pystr) : M (option (Git Path)) :=
  available <- call_has_cmd (lit "git") ;;
  if negb available then ret None
  else
    g <- Git_init root ;;
    ret (Some g).

(** A [Git] object is always true, so [git.version if git else None]
    separates a client from [None]. *)
Definition get_version (root : pystr) : M (option pystr) :=
  git <- new_client root ;;
  match git with
  | Some g => Git_version g
  | None => ret None
  end.

(** ** Vocabulary of the statements: the host *)

(** The version that a raw tag stands for. *)
Definition tag_version (raw_tag : pystr) : Version :=
  match Semver_parse raw_tag with
  | Some v => VSemver v
  | None => VRaw (Py.lstrip raw_tag (lit "v"))
  end.

(** The [k]-th parent of a directory. *)
Fixpoint ancestor (k : nat) (p : Path) : Path :=
  match k with
  | O => p
  | S k' => ancestor k' (parent pathlib p)
  end.

(** Whether a directory holds the repository marker. *)
Definition has_marker (p : Path) : bool :=
  is_dir host (joinpath pathlib p (lit ".git")).

Definition search_disabled : bool :=
  is_env_disabled host (lit "AUTOBUILD_SCM_SEARCH").

Definition is_root (p : Path) : bool :=
  Path_eqb pathlib (parent pathlib p) p.

(** The directories a trace inspected, and whether it ran a command. *)
Definition probes (t : list (Event Path)) : list Path :=
  flat_map (fun e => match e with EvIsDir p => [p] | _ => [] end) t.

Definition runs_cmd (t : list (Event Path)) : bool :=
  existsb (fun e => match e with EvCmd _ => true | _ => false end) t.

(** The arguments of the [git describe] call made for a root. *)
Definition describe_argv (root : Path) : list pystr :=
  lit "git" :: lit "-C" :: Path_str pathlib root :: describe_args.

(** The reasons for which the search gives up. *)
Inductive gives_up (start : Path) (level : Z) : Prop :=
| depth_reached :
    (level >= MAX_GIT_SEARCH_DEPTH)%Z -> gives_up start level
| root_reached :
    has_marker start = false -> is_root start = true -> gives_up start level
| search_off :
    has_marker start = false -> search_disabled = true ->
    gives_up start level
| too_deep :
    level = 0%Z ->
    (forall j, (j < 20)%nat -> has_marker (ancestor j start) = false) ->
    gives_up start level.

(** ** Facts about the string operations *)

Lemma startswith_app (p r : pystr) : Py.startswith (p ++ r) p = true.
Proof.
  induction p as [|a p IH]; simpl; [now destruct r|].
  now rewrite Ascii.eqb_refl, IH.
Qed.

Lemma startswith_inv (p s : pystr) :
  Py.startswith s p = true -> exists r, s = p ++ r.
Proof.
  revert s; induction p as [|a p IH]; intros s H.
  - now exists s.
  - destruct s as [|b s]; simpl in H; [discriminate|].
    apply andb_prop in H as [Hab Hs]. apply Ascii.eqb_eq in Hab. subst b.
    destruct (IH _ Hs) as [r ->]. now exists r.
Qed.

Lemma endswith_app (b suf : pystr) : Py.endswith (b ++ suf) suf = true.
Proof. unfold Py.endswith. rewrite rev_app_distr. apply startswith_app. Qed.

Lemma endswith_inv (s suf : pystr) :
  Py.endswith s suf = true -> exists b, s = b ++ suf.
Proof.
  unfold Py.endswith. intros H. apply startswith_inv in H as [r Hr].
  exists (List.rev r). rewrite <- (rev_involutive s), Hr, rev_app_distr.
  now rewrite rev_involutive.
Qed.

Lemma drop_last_app A (b suf : list A) :
  Py.drop_last (length suf) (b ++ suf) = b.
Proof.
  unfold Py.drop_last. rewrite length_app.
  replace (length b + length suf - length suf)%nat with (length b + 0)%nat
    by lia.
  rewrite firstn_app_2. simpl. apply app_nil_r.
Qed.

Lemma take_last_rev A (k : nat) (l : list A) :
  Py.take_last k (List.rev l) = List.rev (firstn k l).
Proof.
  unfold Py.take_last. rewrite length_rev, skipn_rev.
  destruct (Nat.le_gt_cases k (length l)) as [Hk|Hk].
  - now replace (length l - (length l - k))%nat with k by lia.
  - replace (length l - (length l - k))%nat with (length l) by lia.
    now rewrite firstn_all, firstn_all2 by lia.
Qed.

Lemma partition_none (sep : ascii) (s : pystr) :
  ~ In sep s -> Py.partition sep s = None.
Proof.
  induction s as [|c s IH]; simpl; intros H; [reflexivity|].
  destruct (Ascii.eqb c sep) eqn:E.
  - apply Ascii.eqb_eq in E. subst. tauto.
  - rewrite IH; tauto.
Qed.

Lemma partition_app (sep : ascii) (a b : pystr) :
  ~ In sep a -> Py.partition sep (a ++ sep :: b) = Some (a, b).
Proof.
  induction a as [|c a IH]; simpl; intros H.
  - now rewrite Ascii.eqb_refl.
  - destruct (Ascii.eqb c sep) eqn:E.
    + apply Ascii.eqb_eq in E. subst. tauto.
    + rewrite IH; tauto.
Qed.

Lemma partition_some_inv (sep : ascii) (s a b : pystr) :
  Py.partition sep s = Some (a, b) -> s = a ++ sep :: b /\ ~ In sep a.
Proof.
  revert a; induction s as [|c s IH]; simpl; intros a H; [discriminate|].
  destruct (Ascii.eqb c sep) eqn:E.
  - apply Ascii.eqb_eq in E. inversion H; subst. simpl. tauto.
  - destruct (Py.partition sep s) as [[a' b']|]; [|discriminate].
    inversion H; subst. destruct (IH a' eq_refl) as [-> Hn].
    split; [reflexivity|]. simpl. intros [->|Hin]; [|tauto].
    now rewrite Ascii.eqb_refl in E.
Qed.

Lemma partition_none_inv (sep : ascii) (s : pystr) :
  Py.partition sep s = None -> ~ In sep s.
Proof.
  induction s as [|c s IH]; simpl; intros H; [tauto|].
  destruct (Ascii.eqb c sep) eqn:E; [discriminate|].
  destruct (Py.partition sep s) as [[a' b']|]; [discriminate|].
  intros [->|Hin]; [now rewrite Ascii.eqb_refl in E | now apply IH].
Qed.

(** Every component of a split but the last is free of the separator. *)
Lemma split_cons_inv (sep : ascii) (n : nat) (s a x : pystr) (l : list pystr) :
  Py.split sep n s = a :: x :: l ->
  ~ In sep a /\ exists m r, n = S m /\ s = a ++ sep :: r
                           /\ Py.split sep m r = x :: l.
Proof.
  destruct n as [|m]; simpl; [discriminate|].
  destruct (Py.partition sep s) as [[a' b']|] eqn:E; [|discriminate].
  intros H; inversion H; subst.
  apply partition_some_inv in E as [-> Hn]. split; [assumption|].
  now exists m, b'.
Qed.



(** ** Facts about [int] and [str] on integers *)


Lemma dropwhile_incl (p : ascii -> bool) (s : pystr) (c : ascii) :
  In c (Py.dropwhile p s) -> In c s.
Proof.
  induction s as [|a s IH]; simpl; [tauto|].
  destruct (p a); simpl; tauto.
Qed.


Lemma strip_incl (s : pystr) (c : ascii) : In c (Py.strip s) -> In c s.
Proof.
  unfold Py.strip. intros H. apply in_rev in H.
  apply dropwhile_incl in H. apply in_rev in H.
  now apply dropwhile_incl in H.
Qed.

Lemma dropwhile_head (p : ascii -> bool) (c : ascii) (s : pystr) :
  p c = false -> Py.dropwhile p (c :: s) = c :: s.
Proof. simpl. now intros ->. Qed.

Lemma strip_id (s : pystr) :
  Forall (fun c => Py.is_int_space c = false) s -> Py.strip s = s.
Proof.
  intros H. unfold Py.strip.
  assert (D : forall l, Forall (fun c => Py.is_int_space c = false) l ->
                        Py.dropwhile Py.is_int_space l = l).
  { intros [|a l] Hl; [reflexivity|]. inversion Hl; subst.
    now apply dropwhile_head. }
  rewrite (D s H), D, rev_involutive; [reflexivity|].
  now apply Forall_rev.
Qed.


Lemma isdigit_not_space (c : ascii) :
  Py.isdigit c = true -> Py.is_int_space c = false.
Proof.
  destruct c as [[] [] [] [] [] [] [] []]; cbv; congruence.
Qed.

Lemma isdigit_not_sign (c : ascii) :
  Py.isdigit c = true -> c <> "+" /\ c <> "-" /\ c <> "_".
Proof.
  destruct c as [[] [] [] [] [] [] [] []]; cbv; intros H;
    repeat split; congruence.
Qed.

Lemma uint_str_isdigit (u : Decimal.uint) :
  Forall (fun c => Py.isdigit c = true) (Py.uint_str u).
Proof. induction u; simpl; constructor; auto. Qed.

Lemma int_digits_step (c c' : ascii) d (r : pystr) :
  Py.digit c = Some d -> c' <> "_" ->
  Py.int_digits (c :: c' :: r) = option_map d (Py.int_digits (c' :: r)).
Proof.
  intros Hd Hc. cbn [Py.int_digits]. rewrite Hd.
  destruct c' as [[] [] [] [] [] [] [] []]; try reflexivity; congruence.
Qed.

Lemma int_digits_cons (c : ascii) d (u : Decimal.uint) :
  Py.digit c = Some d ->
  u = Decimal.Nil \/ Py.int_digits (Py.uint_str u) = Some u ->
  Py.int_digits (c :: Py.uint_str u) = Some (d u).
Proof.
  intros Hd [->|IH]; [simpl; now rewrite Hd|].
  pose proof (uint_str_isdigit u) as Hall.
  destruct (Py.uint_str u) as [|c' r] eqn:E; [discriminate IH|].
  inversion Hall; subst.
  rewrite int_digits_step with (d := d); [now rewrite IH | assumption |].
  now apply isdigit_not_sign.
Qed.

Lemma int_digits_uint_str (u : Decimal.uint) :
  u <> Decimal.Nil -> Py.int_digits (Py.uint_str u) = Some u.
Proof.
  induction u as [|u IH|u IH|u IH|u IH|u IH|u IH|u IH|u IH|u IH|u IH];
    intros H; [congruence|..];
    (cbn [Py.uint_str]; apply int_digits_cons; [reflexivity|];
     destruct u; [now left | right; apply IH; discriminate ..]).
Qed.


Lemma of_uint_nonneg (u : Decimal.uint) : (0 <= Z.of_uint u)%Z.
Proof. unfold Z.of_uint. apply N2Z.is_nonneg. Qed.

(** [int] reads back what [str] prints. *)
Lemma int_int_str (z : Z) : Py.int (Py.int_str z) = Some z.
Proof.
  pose proof (DecimalZ.of_to z) as Hz. revert Hz.
  unfold Py.int_str.
  assert (Hnn : match Z.to_int z with
                | Decimal.Pos u | Decimal.Neg u => u <> Decimal.Nil end).
  { destruct z; simpl; try discriminate;
      apply DecimalPos.Unsigned.to_uint_nonnil. }
  destruct (Z.to_int z) as [u|u]; intros Hz; simpl in Hz.
  - unfold Py.int.
    rewrite strip_id
      by (eapply Forall_impl; [|apply uint_str_isdigit];
          apply isdigit_not_space).
    pose proof (int_digits_uint_str Hnn) as Hd.
    pose proof (uint_str_isdigit u) as Hall.
    destruct (Py.uint_str u) as [|c r] eqn:E; [discriminate|].
    apply Forall_inv in Hall.
    destruct (isdigit_not_sign c) as (Hp & Hm & _); [assumption|].
    assert (G : option_map Z.of_uint (Py.int_digits (c :: r)) = Some z)
      by (rewrite Hd; simpl; now rewrite Hz).
    revert G. clear - Hp Hm.
    destruct c as [[] [] [] [] [] [] [] []]; try exact (fun h => h);
      congruence.
  - unfold Py.int.
    rewrite strip_id.
    + rewrite int_digits_uint_str by assumption. simpl. now rewrite Hz.
    + constructor; [reflexivity|].
      eapply Forall_impl; [|apply uint_str_isdigit]. apply isdigit_not_space.
Qed.

(** A field without a minus sign is read as a number that is not negative. *)
Lemma int_nonneg (s : pystr) (z : Z) :
  Py.int s = Some z -> hyphen_free s -> (0 <= z)%Z.
Proof.
  unfold Py.int, hyphen_free. intros H Hs.
  assert (Hh : ~ In "-" (Py.strip s)) by (intros ?; eauto using strip_incl).
  assert (G : forall ds, option_map Z.of_uint (Py.int_digits ds) = Some z ->
                         (0 <= z)%Z).
  { intros ds. destruct (Py.int_digits ds); simpl; [|discriminate].
    intros [= <-]. apply of_uint_nonneg. }
  destruct (Py.strip s) as [|c ds]; [discriminate|].
  destruct (Ascii.eqb c "-") eqn:E.
  - apply Ascii.eqb_eq in E. subst. simpl in Hh. tauto.
  - revert H. destruct c as [[] [] [] [] [] [] [] []];
      try apply G; discriminate E.
Qed.



(** ** Facts about the parser *)

Lemma hyphen_free_rev (s : pystr) : hyphen_free s -> ~ In "-" (List.rev s).
Proof. unfold hyphen_free. intros H Hin. apply H. now apply in_rev. Qed.

Lemma describe_text_clean (tag dist com : pystr) :
  describe_text tag dist com false = tag ++ "-" :: dist ++ "-" :: com.
Proof. unfold describe_text. now rewrite app_nil_r. Qed.

Lemma describe_text_dirty (tag dist com : pystr) :
  describe_text tag dist com true
  = describe_text tag dist com false ++ lit "-dirty".
Proof.
  rewrite describe_text_clean. unfold describe_text.
  rewrite <- app_assoc. simpl. rewrite <- app_assoc. reflexivity.
Qed.

Lemma rev_describe_text (tag dist com : pystr) :
  List.rev (describe_text tag dist com false)
  = List.rev com ++ "-" :: List.rev dist ++ "-" :: List.rev tag.
Proof.
  rewrite describe_text_clean.
  rewrite rev_app_distr. simpl. rewrite rev_app_distr. simpl.
  now rewrite <- !app_assoc.
Qed.

Lemma after_last_hyphen_free (tag : pystr) :
  hyphen_free tag -> after_last_hyphen tag = tag.
Proof.
  intros H. unfold after_last_hyphen.
  now rewrite partition_none by now apply hyphen_free_rev.
Qed.

Lemma after_last_hyphen_app (head last : pystr) :
  hyphen_free last -> after_last_hyphen (head ++ "-" :: last) = last.
Proof.
  intros H. unfold after_last_hyphen.
  rewrite rev_app_distr. simpl. rewrite <- app_assoc. simpl.
  rewrite partition_app by now apply hyphen_free_rev.
  apply rev_involutive.
Qed.

Lemma rsplit_two (tag dist com : pystr) :
  hyphen_free dist -> hyphen_free com ->
  Py.rsplit "-" 2 (describe_text tag dist com false) = [tag; dist; com].
Proof.
  intros Hd Hc. unfold Py.rsplit. rewrite rev_describe_text.
  cbn [Py.split].
  rewrite partition_app by now apply hyphen_free_rev.
  rewrite partition_app by now apply hyphen_free_rev.
  simpl. now rewrite !rev_involutive.
Qed.

Lemma rsplit_three (tag dist com : pystr) :
  hyphen_free dist -> hyphen_free com ->
  Py.take_last 3 (Py.rsplit "-" 3 (describe_text tag dist com false))
  = [after_last_hyphen tag; dist; com].
Proof.
  intros Hd Hc. unfold Py.rsplit. rewrite take_last_rev, rev_describe_text.
  cbn [Py.split].
  rewrite partition_app by now apply hyphen_free_rev.
  rewrite partition_app by now apply hyphen_free_rev.
  unfold after_last_hyphen.
  destruct (Py.partition "-" (List.rev tag)) as [[a b]|];
    simpl; now rewrite !rev_involutive.
Qed.

Lemma clean_text_not_dirty (tag dist com : pystr) :
  hyphen_free com -> com <> lit "dirty" ->
  Py.endswith (describe_text tag dist com false) (lit "-dirty") = false.
Proof.
  intros Hc Hne.
  destruct (Py.endswith _ _) eqn:E; [exfalso|reflexivity].
  apply endswith_inv in E as [b Hb].
  apply (f_equal (@List.rev ascii)) in Hb.
  rewrite rev_describe_text, rev_app_distr in Hb.
  apply (f_equal (Py.partition "-")) in Hb.
  rewrite partition_app in Hb by now apply hyphen_free_rev.
  change (List.rev (lit "-dirty") ++ List.rev b)
    with (lit "ytrid" ++ "-" :: List.rev b) in Hb.
  rewrite partition_app in Hb
    by (cbv; intros H; repeat (destruct H as [H|H]; [discriminate H|]);
        exact H).
  injection Hb as Hrev _. apply Hne.
  rewrite <- (rev_involutive com), Hrev. reflexivity.
Qed.

(** A clean descriptor is read field by field, the tag as a whole. *)
Lemma parse_clean (tag dist com : pystr) :
  hyphen_free dist -> hyphen_free com -> com <> lit "dirty" ->
  _parse_describe (describe_text tag dist com false)
  = match Py.int dist with
    | None => inl ValueError
    | Some n => inr {| dirty := false; distance := n;
                       commit := Py.drop_first com;
                       version := tag_version tag |}
    end.
Proof.
  intros Hd Hc Hne. unfold _parse_describe.
  rewrite clean_text_not_dirty by assumption.
  rewrite rsplit_two by assumption.
  reflexivity.
Qed.

(** A dirty descriptor is read field by field too, but only the text
    after the last hyphen of the tag reaches the version. *)
Lemma parse_dirty (tag dist com : pystr) :
  hyphen_free dist -> hyphen_free com ->
  _parse_describe (describe_text tag dist com true)
  = match Py.int dist with
    | None => inl ValueError
    | Some n => inr {| dirty := true; distance := n;
                       commit := Py.drop_first com;
                       version := tag_version (after_last_hyphen tag) |}
    end.
Proof.
  intros Hd Hc. unfold _parse_describe.
  rewrite describe_text_dirty, endswith_app.
  change 6%nat with (length (lit "-dirty")). rewrite drop_last_app.
  rewrite rsplit_three by assumption.
  reflexivity.
Qed.

Lemma take_last_rsplit_inv (sep : ascii) (n : nat) (s raw dist com : pystr) :
  Py.take_last 3 (Py.rsplit sep n s) = [raw; dist; com] ->
  ~ In sep dist /\ ~ In sep com.
Proof.
  unfold Py.rsplit. rewrite take_last_rev. intros H.
  apply (f_equal (@List.rev pystr)) in H. rewrite rev_involutive in H.
  simpl in H.
  destruct (Py.split sep n (List.rev s)) as [|a [|b [|c l]]] eqn:E;
    try discriminate H.
  simpl in H. inversion H; subst.
  apply split_cons_inv in E as (Ha & m & r & _ & _ & E').
  apply split_cons_inv in E' as (Hb & _).
  split; intros Hin; [apply Hb | apply Ha]; now apply in_rev in Hin.
Qed.

(** The distance of a parsed descriptor is never negative. *)
Lemma parse_distance_nonneg (d : pystr) (meta : GitMeta) :
  _parse_describe d = inr meta -> (0 <= distance meta)%Z.
Proof.
  unfold _parse_describe.
  destruct (Py.take_last 3 _) as [|raw [|dist [|com [|x l]]]] eqn:E;
    try discriminate.
  destruct (Py.int dist) as [n|] eqn:En; [|discriminate].
  intros [= <-]. simpl.
  apply take_last_rsplit_inv in E as [Hd _].
  eapply int_nonneg; eassumption.
Qed.





(** ** Facts about the search for the repository root *)

Lemma levels_left_ge (level : Z) :
  (level >= MAX_GIT_SEARCH_DEPTH)%Z -> levels_left level = 0%nat.
Proof. unfold levels_left. lia. Qed.

Lemma levels_left_lt (level : Z) :
  (level < MAX_GIT_SEARCH_DEPTH)%Z ->
  levels_left level = S (levels_left (level + 1)).
Proof. unfold levels_left. lia. Qed.

Lemma levels_left_0 : levels_left 0 = 20%nat.
Proof. reflexivity. Qed.

Lemma find_at_max (start : Path) (level : Z) :
  (level >= MAX_GIT_SEARCH_DEPTH)%Z -> _find_repo_dir start level = ret None.
Proof.
  intros H. rewrite _find_repo_dir_equation_1.
  destruct (Z_ge_dec level MAX_GIT_SEARCH_DEPTH); [reflexivity|contradiction].
Qed.

(** One round of the search below the maximum depth. *)
Lemma find_step (start : Path) (level : Z) :
  (level < MAX_GIT_SEARCH_DEPTH)%Z ->
  _find_repo_dir start level
  = let probe := EvIsDir (joinpath pathlib start (lit ".git")) in
    let toggle := EvEnv (lit "AUTOBUILD_SCM_SEARCH") in
    if has_marker start then ([probe], inr (Some start))
    else if search_disabled then ([probe; toggle], inr None)
    else if is_root start then ([probe; toggle], inr None)
    else
      let rest := _find_repo_dir (parent pathlib start) (level + 1) in
      (probe :: toggle :: trace rest, outcome rest).
Proof.
  intros H. rewrite _find_repo_dir_equation_1.
  destruct (Z_ge_dec level MAX_GIT_SEARCH_DEPTH) as [Hge|Hn]; [lia|].
  cbn [_find_repo_dir_unfold_clause_1].
  unfold has_marker, search_disabled, is_root, call_is_dir,
    call_is_env_disabled, bind, ret, trace, outcome.
  destruct (is_dir host _); [reflexivity|].
  destruct (is_env_disabled host _); [reflexivity|].
  destruct (Path_eqb pathlib _ _); [reflexivity|].
  destruct (_find_repo_dir _ _) as [t r]. reflexivity.
Qed.

(** The search always returns: it raises nothing, inspects at most as many
    directories as there are levels left, and runs no command. *)
Lemma find_returns (start : Path) (level : Z) :
  exists t r, _find_repo_dir start level = (t, inr r)
              /\ (length (probes t) <= levels_left level)%nat
              /\ (length t <= 2 * levels_left level)%nat
              /\ runs_cmd t = false.
Proof.
  remember (levels_left level) as n eqn:En.
  revert start level En. induction n as [|n IH]; intros start level En.
  - exists [], None. rewrite find_at_max; [now cbv|].
    unfold levels_left in En. lia.
  - assert (Hlt : (level < MAX_GIT_SEARCH_DEPTH)%Z)
      by (unfold levels_left in En; lia).
    rewrite find_step by assumption. cbv zeta.
    destruct (has_marker start);
      [eexists _, _; split; [reflexivity|]; simpl; repeat split; lia|].
    destruct search_disabled;
      [eexists _, _; split; [reflexivity|]; simpl; repeat split; lia|].
    destruct (is_root start);
      [eexists _, _; split; [reflexivity|]; simpl; repeat split; lia|].
    destruct (IH (parent pathlib start) (level + 1)%Z)
      as (t & r & E & Hp & Hl & Hc).
    { rewrite levels_left_lt in En by assumption. congruence. }
    rewrite E. exists (EvIsDir (joinpath pathlib start (lit ".git"))
                         :: EvEnv (lit "AUTOBUILD_SCM_SEARCH") :: t), r.
    split; [reflexivity|]. simpl. repeat split; try lia. assumption.
Qed.

(** Without a marker on the levels that are left, nothing is found. *)
Lemma find_none (start : Path) (level : Z) :
  (forall j, (j < levels_left level)%nat ->
             has_marker (ancestor j start) = false) ->
  outcome (_find_repo_dir start level) = inr None.
Proof.
  remember (levels_left level) as n eqn:En.
  revert start level En. induction n as [|n IH]; intros start level En H.
  - rewrite find_at_max; [reflexivity|]. unfold levels_left in En. lia.
  - assert (Hlt : (level < MAX_GIT_SEARCH_DEPTH)%Z)
      by (unfold levels_left in En; lia).
    rewrite find_step by assumption. cbv zeta.
    assert (H0 : has_marker start = false) by (apply (H 0%nat); lia).
    rewrite H0.
    destruct search_disabled; [reflexivity|].
    destruct (is_root start); [reflexivity|].
    unfold outcome at 1. cbn [snd].
    apply IH.
    + rewrite levels_left_lt in En by assumption. congruence.
    + intros j Hj. apply (H (S j)). lia.
Qed.

(** What is found is the nearest marked ancestor, fewer levels up than
    there are levels left. *)
Lemma find_some_inv (start : Path) (level : Z) (d : Path) :
  outcome (_find_repo_dir start level) = inr (Some d) ->
  exists j, (j < levels_left level)%nat /\ d = ancestor j start
            /\ has_marker d = true
            /\ forall i, (i < j)%nat -> has_marker (ancestor i start) = false.
Proof.
  remember (levels_left level) as n eqn:En.
  revert start level En. induction n as [|n IH]; intros start level En.
  - rewrite find_at_max; [discriminate|]. unfold levels_left in En. lia.
  - assert (Hlt : (level < MAX_GIT_SEARCH_DEPTH)%Z)
      by (unfold levels_left in En; lia).
    rewrite find_step by assumption. cbv zeta.
    destruct (has_marker start) eqn:Em.
    { intros [= <-]. exists 0%nat. repeat split; [lia|assumption|].
      intros i Hi. lia. }
    destruct search_disabled; [discriminate|].
    destruct (is_root start); [discriminate|].
    unfold outcome at 1. cbn [snd]. intros H.
    apply IH in H as (j & Hj & -> & Hm & Hbelow).
    + exists (S j). repeat split; [lia|assumption|].
      intros [|i] Hi; [assumption|]. apply Hbelow. lia.
    + rewrite levels_left_lt in En by assumption. congruence.
Qed.

(** With the upward search enabled, a marker is found when it is within
    the levels that are left and no file-system root comes before it. *)
Lemma find_reaches (j : nat) (start : Path) (level : Z) :
  search_disabled = false ->
  (j < levels_left level)%nat ->
  (forall i, (i < j)%nat -> has_marker (ancestor i start) = false
                            /\ is_root (ancestor i start) = false) ->
  has_marker (ancestor j start) = true ->
  outcome (_find_repo_dir start level) = inr (Some (ancestor j start)).
Proof.
  intros Hs. revert start level.
  induction j as [|j IH]; intros start level Hj Hbelow Hm.
  - rewrite find_step by (unfold levels_left in Hj; lia). cbv zeta.
    simpl in Hm. now rewrite Hm.
  - assert (Hlt : (level < MAX_GIT_SEARCH_DEPTH)%Z)
      by (unfold levels_left in Hj; lia).
    rewrite find_step by assumption. cbv zeta.
    destruct (Hbelow 0%nat) as [H0 R0]; [lia|]. simpl in H0, R0.
    rewrite H0, Hs, R0. unfold outcome at 1. cbn [snd].
    apply IH.
    + rewrite levels_left_lt in Hj by assumption. lia.
    + intros i Hi. apply (Hbelow (S i)). lia.
    + exact Hm.
Qed.

(** ** Facts about the handle *)

Lemma lstrip_leading_v (k : nat) (rest : pystr) :
  Py.startswith rest (lit "v") = false ->
  Py.lstrip (repeat "v" k ++ rest) (lit "v") = rest.
Proof.
  intros H. unfold Py.lstrip.
  induction k as [|k IH]; simpl.
  - destruct rest as [|c r]; [reflexivity|].
    change (Py.startswith (c :: r) (lit "v"))
      with (Ascii.eqb "v" c && Py.startswith r []) in H.
    replace (Py.startswith r []) with true in H by now destruct r.
    rewrite andb_true_r, Ascii.eqb_sym in H.
    simpl. now rewrite H.
  - exact IH.
Qed.

(** What [Git.version] does once a root is known, the [describe] call has
    answered and its answer has been parsed. *)
Lemma Git_version_parsed (self : Git Path) (root : Path)
      (cp : CompletedProcess) (meta : GitMeta) :
  repo_dir self = Some root ->
  cmd host (describe_argv root) = inr cp ->
  _parse_describe (stdout cp) = inr meta ->
  Git_version self
  = let next := Version_str (next_version (version meta)) in
    let dev := next ++ lit "-dev" ++ Py.int_str (distance meta)
                    ++ lit ".g" ++ commit meta in
    if dirty meta then
      ([EvCmd (describe_argv root); EvDate],
       inr (Some (next ++ lit "-dev" ++ Py.int_str (distance meta)
                       ++ lit ".g" ++ commit meta ++ lit ".d" ++ date host)))
    else if (distance meta =? 0)%Z then
      ([EvCmd (describe_argv root)], inr (Some (Version_str (version meta))))
    else ([EvCmd (describe_argv root)], inr (Some dev)).
Proof.
  intros Hr Hc Hp.
  unfold Git_version, Git_describe, Git__git, call_cmd, repo_dir_str.
  rewrite Hr. fold (describe_argv root). unfold bind at 2. rewrite Hc.
  cbn [ret app]. unfold bind at 1. unfold lift. rewrite Hp.
  unfold bind at 1. cbv zeta.
  destruct (dirty meta); [reflexivity|].
  destruct (distance meta =? 0)%Z; reflexivity.
Qed.

Lemma Git_init_eq (root : pystr) :
  Git_init root
  = (trace (_find_repo_dir (Path_of pathlib root) 0),
     match outcome (_find_repo_dir (Path_of pathlib root) 0) with
     | inl e => inl e
     | inr d => inr {| repo_dir := d |}
     end).
Proof.
  unfold Git_init, bind, ret, trace, outcome.
  destruct (_find_repo_dir _ _) as [t [e|d]]; simpl; [reflexivity|].
  now rewrite app_nil_r.
Qed.

Lemma int_str_hyphen_free (n : Z) : (0 <= n)%Z -> hyphen_free (Py.int_str n).
Proof.
  intros Hn. unfold Py.int_str, hyphen_free.
  destruct n as [|q|q]; [| |lia]; simpl; [cbv; intuition discriminate|].
  intros Hin. pose proof (uint_str_isdigit (Pos.to_uint q)) as Hall.
  rewrite Forall_forall in Hall. now specialize (Hall _ Hin).
Qed.

(** The distance and the abbreviated commit of a well-formed descriptor
    are read back exactly, clean or dirty; the tag reaches the version as a
    whole when the descriptor is clean. *)
Lemma describe_round_trip (tag hex : pystr) (n : Z) (is_dirty : bool) :
  (0 <= n)%Z -> hyphen_free hex ->
  _parse_describe (describe_text tag (Py.int_str n) ("g" :: hex) is_dirty)
  = inr {| dirty := is_dirty; distance := n; commit := hex;
           version := tag_version (if is_dirty then after_last_hyphen tag
                                   else tag) |}.
Proof.
  intros Hn Hh.
  assert (Hg : hyphen_free ("g" :: hex))
    by (unfold hyphen_free in *; simpl; intros [H|H]; [discriminate|tauto]).
  destruct is_dirty.
  - rewrite parse_dirty by auto using int_str_hyphen_free.
    now rewrite int_int_str.
  - rewrite parse_clean by (auto using int_str_hyphen_free; discriminate).
    now rewrite int_int_str.
Qed.

(** ** The properties of the specification *)

(** C1. For every parsed descriptor the version string follows the
    three-way rule: a dirty tree gives [{next}-dev{distance}.g{commit}.d{date}]
    with the date of the host; a clean tree at a positive distance gives
    [{next}-dev{distance}.g{commit}]; a clean tree at distance zero gives
    the text of the tag version itself, semantic or not, with no bump and
    no suffix. The distance of a parsed descriptor is never negative, so
    the three cases are all there are. *)
Theorem version_three_way_rule (self : Git Path) (root : Path)
        (cp : CompletedProcess) (meta : GitMeta) :
  repo_dir self = Some root ->
  cmd host (describe_argv root) = inr cp ->
  _parse_describe (stdout cp) = inr meta ->
  exists out,
    outcome (Git_version self) = inr (Some out)
    /\ (dirty meta = true ->
        out = Version_str (next_version (version meta)) ++ lit "-dev"
                ++ Py.int_str (distance meta) ++ lit ".g" ++ commit meta
                ++ lit ".d" ++ date host)
    /\ (dirty meta = false -> (0 < distance meta)%Z ->
        out = Version_str (next_version (version meta)) ++ lit "-dev"
                ++ Py.int_str (distance meta) ++ lit ".g" ++ commit meta)
    /\ (dirty meta = false -> distance meta = 0%Z ->
        out = Version_str (version meta))
    /\ (0 <= distance meta)%Z.
Proof.
  intros Hr Hc Hp.
  rewrite (Git_version_parsed self Hr Hc Hp). cbv zeta.
  pose proof (parse_distance_nonneg _ Hp) as Hnn.
  destruct (dirty meta).
  - eexists. split; [reflexivity|].
    repeat split; try discriminate; auto.
  - destruct (Z.eqb_spec (distance meta) 0) as [E|E].
    + eexists. split; [reflexivity|].
      repeat split; try discriminate; auto. intros _ H. lia.
    + eexists. split; [reflexivity|].
      repeat split; try discriminate; auto. intros _ H. contradiction.
Qed.


(** C4. In the formatter [{next}] is the tag version with its patch
    component incremented by one and its pre-release label cleared when
    the tag is a semantic version, and the raw fallback text unchanged when
    it is not; the version string starts with it on a dirty tree and at
    every distance other than zero. The bump builds a new value: on a
    clean tree at distance zero the version of the descriptor is printed
    as it was parsed. *)
Theorem next_is_patch_bump (self : Git Path) (root : Path)
        (cp : CompletedProcess) (meta : GitMeta) :
  repo_dir self = Some root ->
  cmd host (describe_argv root) = inr cp ->
  _parse_describe (stdout cp) = inr meta ->
  next_version (version meta)
  = match version meta with
    | VSemver sv => VSemver {| major := major sv; minor := minor sv;
                               patch := patch sv + 1; prerelease := None |}
    | VRaw s => VRaw s
    end
  /\ (dirty meta = true \/ distance meta <> 0%Z ->
      exists suffix,
        outcome (Git_version self)
        = inr (Some (match version meta with
                     | VSemver sv =>
                         Semver_str {| major := major sv; minor := minor sv;
                                       patch := patch sv + 1;
                                       prerelease := None |}
                     | VRaw s => s
                     end ++ lit "-dev" ++ Py.int_str (distance meta)
                         ++ suffix)))
  /\ (dirty meta = false -> distance meta = 0%Z ->
      outcome (Git_version self) = inr (Some (Version_str (version meta)))).
Proof.
  intros Hr Hc Hp.
  rewrite (Git_version_parsed self Hr Hc Hp). cbv zeta.
  split; [now destruct (version meta)|]. split.
  - intros Hcase. destruct (dirty meta) eqn:Ed.
    + exists (lit ".g" ++ commit meta ++ lit ".d" ++ date host).
      destruct (version meta); reflexivity.
    + destruct Hcase as [|Hn]; [discriminate|].
      destruct (Z.eqb_spec (distance meta) 0) as [E|_]; [contradiction|].
      exists (lit ".g" ++ commit meta).
      destruct (version meta); reflexivity.
  - intros -> ->. reflexivity.
Qed.

(** C10. When the raw tag that the parser isolates is not a semantic
    version, the fallback version is that tag with every leading [v]
    removed, not just the first, at every distance and on clean and dirty
    trees alike. The raw tag is the whole tag of a clean descriptor and
    the text after the last hyphen of the tag of a dirty one. The version
    string is built on the stripped text; so for a clean descriptor at
    distance zero it is the tag less those characters, and differs from
    the tag when there is one. *)
Theorem fallback_strips_every_leading_v
        (k : nat) (rest tag dist com : pystr) (is_dirty : bool) (n : Z)
        (self : Git Path) (root : Path) :
  (if is_dirty then after_last_hyphen tag else tag) = repeat "v" k ++ rest ->
  Semver_parse (repeat "v" k ++ rest) = None ->
  Py.startswith rest (lit "v") = false ->
  hyphen_free dist -> hyphen_free com -> com <> lit "dirty" ->
  Py.int dist = Some n ->
  repo_dir self = Some root ->
  cmd host (describe_argv root)
  = inr {| stdout := describe_text tag dist com is_dirty |} ->
  _parse_describe (describe_text tag dist com is_dirty)
  = inr {| dirty := is_dirty; distance := n; commit := Py.drop_first com;
           version := VRaw rest |}
  /\ outcome (Git_version self)
     = inr (Some (if is_dirty then
                    rest ++ lit "-dev" ++ Py.int_str n ++ lit ".g"
                         ++ Py.drop_first com ++ lit ".d" ++ date host
                  else if (n =? 0)%Z then rest
                  else rest ++ lit "-dev" ++ Py.int_str n ++ lit ".g"
                            ++ Py.drop_first com))
  /\ (is_dirty = false -> (0 < k)%nat -> rest <> tag).
Proof.
  intros Hraw Hs Hv Hd Hc Hne Hn Hr Hcmd.
  assert (Hp : _parse_describe (describe_text tag dist com is_dirty)
               = inr {| dirty := is_dirty; distance := n;
                        commit := Py.drop_first com; version := VRaw rest |}).
  { destruct is_dirty.
    - rewrite parse_dirty by assumption. rewrite Hn.
      unfold tag_version. rewrite Hraw, Hs. now rewrite lstrip_leading_v.
    - rewrite parse_clean by assumption. rewrite Hn.
      unfold tag_version. rewrite Hraw, Hs. now rewrite lstrip_leading_v. }
  split; [exact Hp|]. split.
  - rewrite (Git_version_parsed self Hr Hcmd Hp). cbv zeta.
    cbn [dirty distance commit version next_version Version_str].
    destruct is_dirty; [reflexivity|].
    destruct (n =? 0)%Z; reflexivity.
  - intros -> Hk E. rewrite Hraw in E. apply (f_equal (@length ascii)) in E.
    rewrite length_app, repeat_length in E. lia.
Qed.

(** C5. When [git] is not installed, or when no repository root is found
    within the search bound, [get_version] returns [None] and raises
    nothing, and no command is run. Without [git] the only call made is the
    availability check: no directory is inspected and no repository is
    queried. *)
Theorem get_version_absent (root : pystr) :
  has_cmd host (lit "git") = false
  \/ outcome (_find_repo_dir (Path_of pathlib root) 0) = inr None ->
  outcome (get_version root) = inr None
  /\ runs_cmd (trace (get_version root)) = false
  /\ (has_cmd host (lit "git") = false ->
      trace (get_version root) = [EvHasCmd (lit "git")]).
Proof.
  intros H. unfold get_version, new_client, call_has_cmd.
  destruct (has_cmd host (lit "git")) eqn:Eg.
  - destruct H as [H|H]; [discriminate|].
    rewrite Git_init_eq.
    destruct (find_returns (Path_of pathlib root) 0)
      as (t & r & E & _ & _ & Hc).
    rewrite E in *. cbn in H. injection H as ->.
    cbn. rewrite !app_nil_r.
    repeat split; [assumption | discriminate].
  - cbn. repeat split.
Qed.

(** C6. The search for the repository root always returns, after at most
    two host calls per level left; and it returns "not found" when the
    depth has reached the maximum, when the directory is the file-system
    root (its own parent) and the marker was not there, when the upward
    search is disabled and the start lacks the marker, and when the start
    lies more than the maximum depth below every marker. *)
Theorem search_terminates (start : Path) (level : Z) :
  exists t r,
    _find_repo_dir start level = (t, inr r)
    /\ (length t <= 2 * levels_left level)%nat
    /\ (gives_up start level -> r = None).
Proof.
  destruct (find_returns start level) as (t & r & E & _ & Hl & _).
  exists t, r. repeat split; try assumption.
  intros G.
  assert (H : outcome (_find_repo_dir start level) = inr None).
  { destruct G as [Hge|Hm Hr|Hm Hs|Hz Hdeep]; try subst level.
    - now rewrite find_at_max.
    - destruct (Z_ge_dec level MAX_GIT_SEARCH_DEPTH) as [Hge|Hlt].
      + now rewrite find_at_max.
      + rewrite find_step by lia. cbv zeta. rewrite Hm, Hr.
        now destruct (search_disabled).
    - destruct (Z_ge_dec level MAX_GIT_SEARCH_DEPTH) as [Hge|Hlt].
      + now rewrite find_at_max.
      + rewrite find_step by lia. cbv zeta. now rewrite Hm, Hs.
    - apply find_none. rewrite levels_left_0. exact Hdeep. }
  rewrite E in H. cbn in H. congruence.
Qed.

(** C7. With the upward search disabled, the locator looks at the start
    directory only: it answers the start directory when the marker is
    there, since the marker is checked before the toggle, and "not found"
    when it is not, whatever the ancestors hold. *)
Theorem disabled_search_checks_start_only (start : Path) :
  search_disabled = true ->
  outcome (_find_repo_dir start 0)
  = inr (if has_marker start then Some start else None)
  /\ probes (trace (_find_repo_dir start 0))
     = [joinpath pathlib start (lit ".git")].
Proof.
  intros Hs. rewrite find_step by reflexivity. cbv zeta. rewrite Hs.
  destruct (has_marker start); split; reflexivity.
Qed.

(** C8. On a handle whose root discovery ended with "not found", the
    version, the revision, the remote URL and the branch are all [None],
    and asking for them makes no call at all: no directory is inspected
    again and no command is run. *)
Theorem not_found_handle_answers_none
        (root : pystr) (t : list (Event Path)) (g : Git Path) :
  Git_init root = (t, inr g) ->
  outcome (_find_repo_dir (Path_of pathlib root) 0) = inr None ->
  Git_version g = ([], inr None)
  /\ Git_revision g = ([], inr None)
  /\ Git_url g = ([], inr None)
  /\ Git_branch g = ([], inr None).
Proof.
  intros Hi Hf. rewrite Git_init_eq, Hf in Hi. injection Hi as _ <-.
  repeat split.
Qed.

(** C9. The maximum search depth is the constant 20, and a request takes
    no depth: the construction of a handle inspects at most 20
    directories; a marker that lies 20 or more levels above the start is
    not found; and one that lies 19 levels above it is, when the upward
    search is enabled and no file-system root comes before. *)
Theorem search_depth_is_twenty (root : pystr) :
  MAX_GIT_SEARCH_DEPTH = 20%Z
  /\ (length (probes (trace (Git_init root))) <= 20)%nat
  /\ ((forall j, (j < 20)%nat ->
                 has_marker (ancestor j (Path_of pathlib root)) = false) ->
      outcome (Git_init root) = inr {| repo_dir := None |})
  /\ (search_disabled = false ->
      (forall i, (i < 19)%nat ->
                 has_marker (ancestor i (Path_of pathlib root)) = false
                 /\ is_root (ancestor i (Path_of pathlib root)) = false) ->
      has_marker (ancestor 19 (Path_of pathlib root)) = true ->
      outcome (Git_init root)
      = inr {| repo_dir := Some (ancestor 19 (Path_of pathlib root)) |}).
Proof.
  assert (Ht : trace (Git_init root)
               = trace (_find_repo_dir (Path_of pathlib root) 0))
    by now rewrite Git_init_eq.
  assert (Ho : outcome (Git_init root)
               = match outcome (_find_repo_dir (Path_of pathlib root) 0) with
                 | inl e => inl e
                 | inr d => inr {| repo_dir := d |}
                 end)
    by now rewrite Git_init_eq.
  rewrite Ht, Ho. clear Ht Ho.
  split; [reflexivity|]. split; [|split].
  - destruct (find_returns (Path_of pathlib root) 0)
      as (t & r & E & Hp & _ & _).
    rewrite E. cbn. now rewrite levels_left_0 in Hp.
  - intros H. rewrite find_none; [reflexivity|].
    now rewrite levels_left_0.
  - intros Hs Hbelow Hm.
    rewrite find_reaches with (j := 19%nat); auto.
Qed.

(** ** Further properties of the resolver *)

Lemma ancestor_succ (k : nat) (p : Path) :
  ancestor (S k) p = ancestor k (parent pathlib p).
Proof. reflexivity. Qed.

(** What is found, with all that the search met on the way. *)
Lemma find_some_strong (start : Path) (level : Z) (d : Path) :
  outcome (_find_repo_dir start level) = inr (Some d) ->
  exists j, (j < levels_left level)%nat /\ d = ancestor j start
            /\ has_marker d = true
            /\ (forall i, (i < j)%nat ->
                          has_marker (ancestor i start) = false
                          /\ is_root (ancestor i start) = false)
            /\ (j = 0%nat \/ search_disabled = false).
Proof.
  remember (levels_left level) as n eqn:En.
  revert start level En. induction n as [|n IH]; intros start level En.
  - rewrite find_at_max; [discriminate|]. unfold levels_left in En. lia.
  - assert (Hlt : (level < MAX_GIT_SEARCH_DEPTH)%Z)
      by (unfold levels_left in En; lia).
    rewrite find_step by assumption. cbv zeta.
    destruct (has_marker start) eqn:Em.
    { intros [= <-]. exists 0%nat.
      repeat split; try assumption; try lia; auto; intros i Hi; lia. }
    destruct search_disabled eqn:Es; [discriminate|].
    destruct (is_root start) eqn:Er; [discriminate|].
    unfold outcome at 1. cbn [snd]. intros H.
    apply IH in H as (j & Hj & -> & Hm & Hbelow & _).
    + exists (S j). repeat split; try assumption; try lia; auto;
        destruct i as [|i]; try assumption; apply Hbelow; lia.
    + rewrite levels_left_lt in En by assumption. congruence.
Qed.

Lemma trace_pair A (t : list (Event Path)) (r : Exn + A) : trace (t, r) = t.
Proof. reflexivity. Qed.

Lemma bind_raised A B (t : list (Event Path)) (e : Exn) (k : A -> M B) :
  bind (t, inl e) k = (t, inl e).
Proof. reflexivity. Qed.

Lemma bind_returned A B (t : list (Event Path)) (a : A) (k : A -> M B) :
  bind (t, inr a) k = (t ++ trace (k a), outcome (k a)).
Proof. unfold bind. now destruct (k a). Qed.

Lemma probes_round (p : Path) (key : pystr) (t : list (Event Path)) :
  probes (EvIsDir p :: EvEnv key :: t) = p :: probes t.
Proof. reflexivity. Qed.

(** The calls of the search: the marker of the start, of its parent, and
    so on, each followed by a look at the toggle. *)
Lemma find_trace_shape (start : Path) (level : Z) :
  exists k, (k <= levels_left level)%nat
    /\ probes (trace (_find_repo_dir start level))
       = map (fun i => joinpath pathlib (ancestor i start) (lit ".git"))
             (seq 0 k)
    /\ Forall (fun e => match e with
                        | EvIsDir _ => True
                        | EvEnv key => key = lit "AUTOBUILD_SCM_SEARCH"
                        | _ => False
                        end) (trace (_find_repo_dir start level))
    /\ ((level < MAX_GIT_SEARCH_DEPTH)%Z -> (1 <= k)%nat).
Proof.
  remember (levels_left level) as n eqn:En.
  revert start level En. induction n as [|n IH]; intros start level En.
  - exists 0%nat. rewrite find_at_max by (unfold levels_left in En; lia).
    repeat split; [lia | constructor |].
    unfold levels_left in En. lia.
  - assert (Hlt : (level < MAX_GIT_SEARCH_DEPTH)%Z)
      by (unfold levels_left in En; lia).
    rewrite find_step by assumption. cbv zeta.
    assert (Stop : forall tr : list (Event Path),
               tr = [EvIsDir (joinpath pathlib start (lit ".git"))]
               \/ tr = [EvIsDir (joinpath pathlib start (lit ".git"));
                        EvEnv (lit "AUTOBUILD_SCM_SEARCH")] ->
               forall r : Exn + option Path,
               exists k, (k <= S n)%nat
                 /\ probes (trace (tr, r))
                    = map (fun i => joinpath pathlib (ancestor i start)
                                             (lit ".git")) (seq 0 k)
                 /\ Forall (fun e => match e with
                                     | EvIsDir _ => True
                                     | EvEnv key =>
                                         key = lit "AUTOBUILD_SCM_SEARCH"
                                     | _ => False
                                     end) (trace (tr, r))
                 /\ ((level < MAX_GIT_SEARCH_DEPTH)%Z -> (1 <= k)%nat)).
    { intros tr [-> | ->] r; exists 1%nat;
        (split; [lia|]; split; [reflexivity|]; split; [|lia]);
        repeat constructor. }
    destruct (has_marker start); [apply Stop; now left|].
    destruct search_disabled; [apply Stop; now right|].
    destruct (is_root start); [apply Stop; now right|].
    destruct (IH (parent pathlib start) (level + 1)%Z)
      as (k & Hk & Hp & Hall & _).
    { rewrite levels_left_lt in En by assumption. congruence. }
    exists (S k). rewrite !trace_pair.
    split; [lia|]. split; [|split; [|lia]].
    + rewrite probes_round, Hp. cbn [seq map ancestor]. f_equal.
      rewrite <- seq_shift, map_map. reflexivity.
    + constructor; [exact I|]. constructor; [reflexivity|]. exact Hall.
Qed.

Lemma Git_describe_found (d : Path) :
  Git_describe {| repo_dir := Some d |}
  = ([EvCmd (describe_argv d)],
     match cmd host (describe_argv d) with
     | inl e => inl e
     | inr cp => inr (stdout cp)
     end).
Proof.
  unfold Git_describe, Git__git, call_cmd, repo_dir_str. cbn [repo_dir].
  fold (describe_argv d). now destruct (cmd host (describe_argv d)).
Qed.

Lemma get_version_found (root : pystr) (t : list (Event Path)) (d : Path) :
  has_cmd host (lit "git") = true ->
  _find_repo_dir (Path_of pathlib root) 0 = (t, inr (Some d)) ->
  get_version root
  = (EvHasCmd (lit "git") :: t ++ trace (Git_version {| repo_dir := Some d |}),
     outcome (Git_version {| repo_dir := Some d |})).
Proof.
  intros Hg Hf. unfold get_version, new_client, call_has_cmd.
  rewrite Git_init_eq, Hf. unfold trace at 1, outcome at 1. cbn [fst snd].
  unfold bind at 2. rewrite Hg. cbn [negb].
  unfold bind at 2. cbn [ret]. unfold bind at 1.
  destruct (Git_version _) as [t' r']. cbn [trace outcome fst snd].
  now rewrite !app_nil_r.
Qed.

(** X1. A directory found by the search is an ancestor of the start fewer
    than 20 levels up that holds the marker; no directory between the
    start and it holds the marker or is the file-system root; and when it
    is not the start itself, the upward search is enabled. *)
Theorem search_result_is_nearest_marker (start d : Path) :
  outcome (_find_repo_dir start 0) = inr (Some d) ->
  exists j, (j < 20)%nat /\ d = ancestor j start
            /\ has_marker d = true
            /\ (forall i, (i < j)%nat ->
                          has_marker (ancestor i start) = false
                          /\ is_root (ancestor i start) = false)
            /\ (j = 0%nat \/ search_disabled = false).
Proof. intros H. apply find_some_strong in H. exact H. Qed.

(** X2. The search only reads: its calls are marker checks and looks at
    the search toggle, and the markers it checks are those of the start,
    of its parent, of its grandparent and so on, in this order, at least
    one and at most 20 of them. *)
Theorem search_probes_ancestors_in_order (start : Path) :
  exists k, (1 <= k <= 20)%nat
    /\ probes (trace (_find_repo_dir start 0))
       = map (fun i => joinpath pathlib (ancestor i start) (lit ".git"))
             (seq 0 k)
    /\ Forall (fun e => match e with
                        | EvIsDir _ => True
                        | EvEnv key => key = lit "AUTOBUILD_SCM_SEARCH"
                        | _ => False
                        end) (trace (_find_repo_dir start 0)).
Proof.
  destruct (find_trace_shape start 0) as (k & Hk & Hp & Hall & H1).
  exists k. rewrite levels_left_0 in Hk.
  repeat split; try assumption. apply H1. reflexivity.
Qed.

(** X3. With the upward search enabled, the nearest directory that holds
    the marker is found whenever it lies fewer than 20 levels above the
    start and no file-system root comes before it. *)
Theorem search_finds_nearest_marker (j : nat) (start : Path) :
  search_disabled = false ->
  (j < 20)%nat ->
  (forall i, (i < j)%nat -> has_marker (ancestor i start) = false
                            /\ is_root (ancestor i start) = false) ->
  has_marker (ancestor j start) = true ->
  outcome (_find_repo_dir start 0) = inr (Some (ancestor j start)).
Proof.
  intros Hs Hj Hb Hm. apply find_reaches; assumption.
Qed.

(** X4. With [git] installed, a root found and a descriptor that parses,
    [get_version] makes its calls in this order: the availability check,
    the search, one [git describe] run with [-C] on the root that was
    found, and the clock, which is read only for a dirty tree. Its result
    is the version that the handle of that root gives. *)
Theorem get_version_resolves (root : pystr) (t : list (Event Path))
        (d : Path) (cp : CompletedProcess) (meta : GitMeta) :
  has_cmd host (lit "git") = true ->
  _find_repo_dir (Path_of pathlib root) 0 = (t, inr (Some d)) ->
  cmd host (describe_argv d) = inr cp ->
  _parse_describe (stdout cp) = inr meta ->
  trace (get_version root)
  = EvHasCmd (lit "git") :: t ++ EvCmd (describe_argv d)
      :: (if dirty meta then [EvDate] else [])
  /\ (exists out, outcome (get_version root) = inr (Some out))
  /\ outcome (get_version root)
     = outcome (Git_version {| repo_dir := Some d |}).
Proof.
  intros Hg Hf Hc Hp.
  rewrite (get_version_found root Hg Hf).
  rewrite (@Git_version_parsed {| repo_dir := Some d |} d cp meta
             eq_refl Hc Hp). cbv zeta.
  destruct (dirty meta); [|destruct (distance meta =? 0)%Z];
    (split; [reflexivity|]; split; [eexists; reflexivity | reflexivity]).
Qed.

(** X5. Once a root is found, a failure of the query is surfaced: when the
    [git describe] command raises, or when its output does not parse,
    [get_version] raises the same exception, after exactly that one
    command and without reading the clock. *)
Theorem query_failure_propagates (root : pystr) (t : list (Event Path))
        (d : Path) (e : Exn) :
  has_cmd host (lit "git") = true ->
  _find_repo_dir (Path_of pathlib root) 0 = (t, inr (Some d)) ->
  cmd host (describe_argv d) = inl e
  \/ (exists cp, cmd host (describe_argv d) = inr cp
                 /\ _parse_describe (stdout cp) = inl e) ->
  get_version root
  = (EvHasCmd (lit "git") :: t ++ [EvCmd (describe_argv d)], inl e).
Proof.
  intros Hg Hf Hq.
  rewrite (get_version_found root Hg Hf).
  unfold Git_version. cbn [repo_dir]. rewrite Git_describe_found.
  destruct Hq as [Hc|(cp & Hc & Hp)]; rewrite Hc.
  - now rewrite bind_raised.
  - rewrite bind_returned. unfold lift. rewrite Hp.
    now rewrite !bind_raised.
Qed.

(** X6. [get_version] answers [None] only for absence: when it returns
    [None], either [git] is not installed or the search found no root. A
    root that was found always leads to a version or to an exception. *)
Theorem get_version_none_means_absent (root : pystr) :
  outcome (get_version root) = inr None ->
  has_cmd host (lit "git") = false
  \/ outcome (_find_repo_dir (Path_of pathlib root) 0) = inr None.
Proof.
  intros H. destruct (has_cmd host (lit "git")) eqn:Hg; [right|now left].
  destruct (find_returns (Path_of pathlib root) 0) as (t & r & E & _).
  rewrite E. destruct r as [d|]; [exfalso|reflexivity].
  rewrite (get_version_found root Hg E) in H.
  unfold outcome at 1 in H. cbn [snd] in H.
  unfold Git_version in H. cbn [repo_dir] in H.
  rewrite Git_describe_found in H.
  destruct (cmd host _) as [e|cp]; [discriminate H|].
  rewrite bind_returned in H. unfold outcome at 1 in H. cbn [snd] in H.
  unfold lift in H.
  destruct (_parse_describe (stdout cp)) as [e|meta]; [discriminate H|].
  rewrite bind_returned in H. unfold outcome at 1 in H. cbn [snd] in H.
  destruct (dirty meta); [discriminate H|].
  destruct (distance meta =? 0)%Z; discriminate H.
Qed.

Lemma dropwhile_stops (p : ascii -> bool) (s : pystr) :
  match Py.dropwhile p s with
  | [] => True
  | c :: _ => p c = false
  end.
Proof.
  induction s as [|a s IH]; simpl; [exact I|].
  destruct (p a) eqn:E; [exact IH | exact E].
Qed.

Lemma lstrip_v_stops (s : pystr) :
  Py.startswith (Py.lstrip s (lit "v")) (lit "v") = false.
Proof.
  unfold Py.lstrip.
  pose proof (dropwhile_stops
                (fun c => existsb (Ascii.eqb c) (lit "v")) s) as H.
  destruct (Py.dropwhile _ s) as [|c r]; [reflexivity|].
  simpl in H. rewrite orb_false_r in H.
  change (Py.startswith (c :: r) (lit "v"))
    with (Ascii.eqb "v" c && Py.startswith r []).
  now rewrite Ascii.eqb_sym, H.
Qed.

(** X7. A clean descriptor is read back in full, whatever hyphens its tag
    has: the distance, the commit without its [g], and the version of the
    whole tag; a dirty descriptor too when its tag has no hyphen. *)
Theorem clean_descriptor_round_trip (tag hex : pystr) (n : Z) :
  (0 <= n)%Z -> hyphen_free hex ->
  _parse_describe (describe_text tag (Py.int_str n) ("g" :: hex) false)
  = inr {| dirty := false; distance := n; commit := hex;
           version := tag_version tag |}
  /\ (hyphen_free tag ->
      _parse_describe (describe_text tag (Py.int_str n) ("g" :: hex) true)
      = inr {| dirty := true; distance := n; commit := hex;
               version := tag_version tag |}).
Proof.
  intros Hn Hh. split.
  - now rewrite describe_round_trip.
  - intros Ht. rewrite describe_round_trip by assumption.
    now rewrite after_last_hyphen_free.
Qed.

(** X8. Whatever text is parsed, the descriptor that comes out has a
    distance that is not negative, a commit without hyphen, a dirty flag
    that says whether the text ends in [-dirty], and, when the tag is not
    a semantic version, a version that does not start with [v]. *)
Theorem parsed_descriptor_invariants (d : pystr) (meta : GitMeta) :
  _parse_describe d = inr meta ->
  (0 <= distance meta)%Z
  /\ hyphen_free (commit meta)
  /\ dirty meta = Py.endswith d (lit "-dirty")
  /\ (forall s, version meta = VRaw s ->
                Py.startswith s (lit "v") = false).
Proof.
  intros H. split; [now apply parse_distance_nonneg in H|].
  revert H. unfold _parse_describe.
  destruct (Py.take_last 3 _) as [|raw [|dist [|com [|x l]]]] eqn:E;
    try discriminate.
  destruct (Py.int dist) as [n|]; [|discriminate].
  intros [= <-]. cbn [commit dirty version].
  apply take_last_rsplit_inv in E as [_ Hc].
  split; [|split; [reflexivity|]].
  - unfold hyphen_free. intros Hin. apply Hc.
    destruct com; [exact Hin | right; exact Hin].
  - intros s Hs. destruct (Semver_parse raw); [discriminate|].
    injection Hs as <-. apply lstrip_v_stops.
Qed.

(** X9. [new_client] returns [None] only when [git] is missing. When
    [has_cmd] answers no, it returns [None] after that one check, without
    any search; when [has_cmd] answers yes and the search returns, with a
    root or with "not found", it returns a client that holds what the
    search returned: a client is made also where no repository is
    found. *)
Theorem new_client_none_iff_git_missing
        (root : pystr) (t : list (Event Path)) (r : option Path) :
  _find_repo_dir (Path_of pathlib root) 0 = (t, inr r) ->
  new_client root
  = (if has_cmd host (lit "git")
     then (EvHasCmd (lit "git") :: t, inr (Some {| repo_dir := r |}))
     else ([EvHasCmd (lit "git")], inr None))
  /\ (outcome (new_client root) = inr None
      <-> has_cmd host (lit "git") = false).
Proof.
  intros Hf.
  assert (E : new_client root
              = (if has_cmd host (lit "git")
                 then (EvHasCmd (lit "git") :: t,
                       inr (Some {| repo_dir := r |}))
                 else ([EvHasCmd (lit "git")], inr None))).
  { unfold new_client, call_has_cmd. rewrite Git_init_eq, Hf.
    destruct (has_cmd host (lit "git")); cbn; [|reflexivity].
    now rewrite !app_nil_r. }
  split; [exact E|]. rewrite E.
  destruct (has_cmd host (lit "git")); cbn; split; congruence.
Qed.

(** X17. On a handle with a root, the revision, the remote URL and the
    branch never answer [None]: each runs exactly one [git] command with
    [-C] on the root and returns its output, or raises what the command
    raised. *)
Theorem accessors_run_one_command (self : Git Path) (d : Path) :
  repo_dir self = Some d ->
  let git := fun args => lit "git" :: lit "-C" :: Path_str pathlib d :: args in
  let answer := fun argv =>
    (@pair (list (Event Path)) (Exn + option pystr) [EvCmd argv]
       match cmd host argv with
       | inl e => inl e
       | inr cp => inr (Some (stdout cp))
       end) in
  Git_revision self = answer (git [lit "rev-parse"; lit "HEAD"])
  /\ Git_url self = answer (git [lit "remote"; lit "get-url"; lit "origin"])
  /\ Git_branch self
     = answer (git [lit "rev-parse"; lit "--abbrev-ref"; lit "HEAD"])
  /\ outcome (Git_revision self) <> inr None
  /\ outcome (Git_url self) <> inr None
  /\ outcome (Git_branch self) <> inr None.
Proof.
  intros Hr git answer. subst git answer.
  unfold Git_revision, Git_url, Git_branch, Git__git, call_cmd, repo_dir_str.
  rewrite Hr. cbv beta.
  repeat split;
    match goal with
    | |- context [cmd host ?a] => destruct (cmd host a); cbn; congruence
    end.
Qed.

(** X18. The root that the search finds is a fixed point of the search:
    started again from that directory, the search answers the same
    directory after inspecting it alone. *)
Theorem found_root_is_fixed_point (start d : Path) :
  outcome (_find_repo_dir start 0) = inr (Some d) ->
  _find_repo_dir d 0
  = ([EvIsDir (joinpath pathlib d (lit ".git"))], inr (Some d)).
Proof.
  intros H. apply find_some_strong in H as (j & _ & _ & Hm & _).
  rewrite find_step by reflexivity. cbv zeta. now rewrite Hm.
Qed.

End Resolver.

(** ** The properties on a concrete host *)

(** The three shapes of the version string, on the examples of the
    documentation: tag [1.2.3], commit [abc123], date [20250101]. *)
Example version_clean_on_tag :
  outcome (get_version SemverText.parse SemverText.str Posix.lib
             (Posix.host false Posix.repo (lit "1.2.3-0-gabc123"))
             (lit "/srv/pkg/src"))
  = inr (Some (lit "1.2.3")).
Proof. vm_compute. reflexivity. Qed.

Example version_clean_after_tag :
  outcome (get_version SemverText.parse SemverText.str Posix.lib
             (Posix.host false Posix.repo (lit "1.2.3-5-gabc123"))
             (lit "/srv/pkg/src"))
  = inr (Some (lit "1.2.4-dev5.gabc123")).
Proof. vm_compute. reflexivity. Qed.

Example version_dirty :
  outcome (get_version SemverText.parse SemverText.str Posix.lib
             (Posix.host false Posix.repo (lit "1.2.3-5-gabc123-dirty"))
             (lit "/srv/pkg/src"))
  = inr (Some (lit "1.2.4-dev5.gabc123.d20250101")).
Proof. vm_compute. reflexivity. Qed.

Example version_raw_tag :
  outcome (get_version SemverText.parse SemverText.str Posix.lib
             (Posix.host false Posix.repo (lit "release-foo-0-gabc123"))
             (lit "/srv/pkg/src"))
  = inr (Some (lit "release-foo"))
  /\ outcome (get_version SemverText.parse SemverText.str Posix.lib
             (Posix.host false Posix.repo (lit "release-foo-7-gabc123"))
             (lit "/srv/pkg/src"))
  = inr (Some (lit "release-foo-dev7.gabc123")).
Proof. split; vm_compute; reflexivity. Qed.

Lemma version_three_way_rule_witness :
  let h := Posix.host false Posix.repo (lit "1.2.3-5-gabc123-dirty") in
  let self := {| repo_dir := Some Posix.repo |} in
  let meta := {| dirty := true; distance := 5; commit := lit "abc123";
                 version := VSemver (mkSemver 1 2 3 None) |} in
  (repo_dir self = Some Posix.repo
   /\ cmd h (describe_argv Posix.lib Posix.repo)
      = inr {| stdout := lit "1.2.3-5-gabc123-dirty" |}
   /\ _parse_describe SemverText.parse (lit "1.2.3-5-gabc123-dirty")
      = inr meta)
  /\ outcome (Git_version SemverText.parse SemverText.str Posix.lib h self)
     = inr (Some (lit "1.2.4-dev5.gabc123.d20250101")).
Proof.
  intros h self meta. split; [repeat split|].
  destruct (@version_three_way_rule SemverText.parse SemverText.str
              Posix.Path Posix.lib h self Posix.repo
              {| stdout := lit "1.2.3-5-gabc123-dirty" |} meta
              eq_refl eq_refl eq_refl) as (out & Ho & Hd & _).
  rewrite Ho, (Hd eq_refl). reflexivity.
Defined.

(** C2. The parser at dirty descriptors whose tag has a hyphen: distance
    and commit are read back, but of the tag [beta-rc1] the version keeps
    only [rc1], where the clean descriptor keeps the whole tag; and the
    tag [1.2.3-rc1], a semantic version when clean, is cut down to the raw
    text [rc1]. *)
Theorem dirty_descriptor_truncates_hyphenated_tag :
  _parse_describe SemverText.parse (lit "beta-rc1-5-gabc123-dirty")
  = inr {| dirty := true; distance := 5; commit := lit "abc123";
           version := VRaw (lit "rc1") |}
  /\ _parse_describe SemverText.parse (lit "beta-rc1-5-gabc123")
     = inr {| dirty := false; distance := 5; commit := lit "abc123";
              version := VRaw (lit "beta-rc1") |}
  /\ _parse_describe SemverText.parse (lit "1.2.3-rc1-5-gabc123-dirty")
     = inr {| dirty := true; distance := 5; commit := lit "abc123";
              version := VRaw (lit "rc1") |}
  /\ _parse_describe SemverText.parse (lit "1.2.3-rc1-5-gabc123")
     = inr {| dirty := false; distance := 5; commit := lit "abc123";
              version := VSemver (mkSemver 1 2 3 (Some (lit "rc1"))) |}.
Proof. repeat split; vm_compute; reflexivity. Qed.



Lemma next_is_patch_bump_witness :
  let h := Posix.host false Posix.repo (lit "1.2.3-rc1-5-gabc123") in
  let self := {| repo_dir := Some Posix.repo |} in
  let meta := {| dirty := false; distance := 5; commit := lit "abc123";
                 version := VSemver (mkSemver 1 2 3 (Some (lit "rc1"))) |} in
  (repo_dir self = Some Posix.repo
   /\ cmd h (describe_argv Posix.lib Posix.repo)
      = inr {| stdout := lit "1.2.3-rc1-5-gabc123" |}
   /\ _parse_describe SemverText.parse (lit "1.2.3-rc1-5-gabc123")
      = inr meta
   /\ (dirty meta = true \/ distance meta <> 0%Z))
  /\ next_version (version meta) = VSemver (mkSemver 1 2 4 None)
  /\ exists suffix,
      outcome (Git_version SemverText.parse SemverText.str Posix.lib h self)
      = inr (Some (lit "1.2.4-dev5" ++ suffix)).
Proof.
  intros h self meta.
  assert (Hd : dirty meta = true \/ distance meta <> 0%Z)
    by (right; discriminate).
  split; [repeat split; exact Hd|].
  destruct (@next_is_patch_bump SemverText.parse SemverText.str
              Posix.Path Posix.lib h self Posix.repo
              {| stdout := lit "1.2.3-rc1-5-gabc123" |} meta
              eq_refl eq_refl eq_refl) as (Hn & Ho & _).
  split; [exact Hn|].
  destruct (Ho Hd) as (suffix & Hs).
  exists suffix. exact Hs.
Defined.

Lemma get_version_absent_witness :
  let bare := Posix.bare_host Posix.repo in
  let h := Posix.host false Posix.repo (lit "1.2.3-0-gabc123") in
  ((has_cmd bare (lit "git") = false
    \/ outcome (_find_repo_dir Posix.lib bare
                  (Path_of Posix.lib (lit "/srv/pkg/src")) 0) = inr None)
   /\ get_version SemverText.parse SemverText.str Posix.lib bare
        (lit "/srv/pkg/src")
      = ([EvHasCmd (lit "git")], inr None))
  /\ ((has_cmd h (lit "git") = false
       \/ outcome (_find_repo_dir Posix.lib h
                     (Path_of Posix.lib (lit "/home/dev/src")) 0) = inr None)
      /\ outcome (get_version SemverText.parse SemverText.str Posix.lib h
                    (lit "/home/dev/src")) = inr None
      /\ runs_cmd (trace (get_version SemverText.parse SemverText.str
                            Posix.lib h (lit "/home/dev/src"))) = false).
Proof.
  intros bare h. split.
  - assert (H : has_cmd bare (lit "git") = false
                \/ outcome (_find_repo_dir Posix.lib bare
                              (Path_of Posix.lib (lit "/srv/pkg/src")) 0)
                   = inr None) by (left; reflexivity).
    split; [exact H|].
    destruct (@get_version_absent SemverText.parse SemverText.str
                Posix.Path Posix.lib bare (lit "/srv/pkg/src") H)
      as (Ho & _ & Ht).
    specialize (Ht eq_refl). unfold outcome in Ho. unfold trace in Ht.
    destruct (get_version _ _ _ _ _) as [t r]. cbn in Ho, Ht.
    now rewrite Ho, Ht.
  - assert (H : has_cmd h (lit "git") = false
                \/ outcome (_find_repo_dir Posix.lib h
                              (Path_of Posix.lib (lit "/home/dev/src")) 0)
                   = inr None) by (right; vm_compute; reflexivity).
    split; [exact H|].
    destruct (@get_version_absent SemverText.parse SemverText.str
                Posix.Path Posix.lib h (lit "/home/dev/src") H)
      as (Ho & Hc & _).
    split; assumption.
Defined.

Lemma search_terminates_witness :
  let h := Posix.host false [] (lit "1.2.3-0-gabc123") in
  gives_up Posix.lib h (Posix.nested 20) 0
  /\ outcome (_find_repo_dir Posix.lib h (Posix.nested 20) 0) = inr None
  /\ has_marker Posix.lib h (ancestor Posix.lib 20 (Posix.nested 20)) = true.
Proof.
  intros h.
  assert (G : gives_up Posix.lib h (Posix.nested 20) 0).
  { apply too_deep; [reflexivity|]. intros j Hj.
    do 20 (destruct j as [|j]; [vm_compute; reflexivity|]). lia. }
  split; [exact G|]. split; [|vm_compute; reflexivity].
  destruct (@search_terminates Posix.Path Posix.lib h (Posix.nested 20) 0)
    as (t & r & E & _ & Hg).
  rewrite E. cbn. now rewrite (Hg G).
Defined.

Lemma disabled_search_checks_start_only_witness :
  let h := Posix.host true Posix.repo (lit "1.2.3-0-gabc123") in
  let start := Posix.repo ++ [lit "src"] in
  search_disabled h = true
  /\ has_marker Posix.lib h (parent Posix.lib start) = true
  /\ outcome (_find_repo_dir Posix.lib h start 0) = inr None
  /\ outcome (_find_repo_dir Posix.lib h Posix.repo 0)
     = inr (Some Posix.repo).
Proof.
  intros h start.
  split; [reflexivity|]. split; [vm_compute; reflexivity|]. split.
  - destruct (@disabled_search_checks_start_only Posix.Path Posix.lib h
                start eq_refl) as [Ho _].
    rewrite Ho. reflexivity.
  - destruct (@disabled_search_checks_start_only Posix.Path Posix.lib h
                Posix.repo eq_refl) as [Ho _].
    rewrite Ho. reflexivity.
Defined.

Lemma not_found_handle_answers_none_witness :
  let h := Posix.host false Posix.repo (lit "1.2.3-0-gabc123") in
  let root := lit "/home/dev/src" in
  let g : Git Posix.Path := {| repo_dir := None |} in
  (Git_init Posix.lib h root = (trace (Git_init Posix.lib h root), inr g)
   /\ outcome (_find_repo_dir Posix.lib h (Path_of Posix.lib root) 0)
      = inr None)
  /\ Git_version SemverText.parse SemverText.str Posix.lib h g
     = ([], inr None)
  /\ Git_revision Posix.lib h g = ([], inr None)
  /\ Git_url Posix.lib h g = ([], inr None)
  /\ Git_branch Posix.lib h g = ([], inr None).
Proof.
  intros h root g.
  assert (Hi : Git_init Posix.lib h root
               = (trace (Git_init Posix.lib h root), inr g))
    by (vm_compute; reflexivity).
  assert (Hf : outcome (_find_repo_dir Posix.lib h (Path_of Posix.lib root) 0)
               = inr None) by (vm_compute; reflexivity).
  split; [split; assumption|].
  exact (@not_found_handle_answers_none SemverText.parse SemverText.str
           Posix.Path Posix.lib h root _ g Hi Hf).
Defined.

Lemma search_depth_is_twenty_witness :
  let h := Posix.host false [] (lit "1.2.3-0-gabc123") in
  (has_marker Posix.lib h (ancestor Posix.lib 20 (Posix.nested 20)) = true
   /\ outcome (Git_init Posix.lib h (Posix.to_str (Posix.nested 20)))
      = inr {| repo_dir := None |})
  /\ (search_disabled h = false
      /\ has_marker Posix.lib h (ancestor Posix.lib 19 (Posix.nested 19))
         = true
      /\ outcome (Git_init Posix.lib h (Posix.to_str (Posix.nested 19)))
         = inr {| repo_dir := Some [] |}).
Proof.
  intros h. split.
  - split; [vm_compute; reflexivity|].
    destruct (@search_depth_is_twenty Posix.Path Posix.lib h
                (Posix.to_str (Posix.nested 20))) as (_ & _ & Hnone & _).
    apply Hnone. intros j Hj.
    do 20 (destruct j as [|j]; [vm_compute; reflexivity|]). lia.
  - split; [reflexivity|]. split; [vm_compute; reflexivity|].
    destruct (@search_depth_is_twenty Posix.Path Posix.lib h
                (Posix.to_str (Posix.nested 19))) as (_ & _ & _ & Hsome).
    rewrite Hsome; [vm_compute; reflexivity | reflexivity | | ].
    + intros i Hi.
      do 19 (destruct i as [|i]; [split; vm_compute; reflexivity|]). lia.
    + vm_compute. reflexivity.
Defined.

Lemma fallback_strips_every_leading_v_witness :
  let clean := Posix.host false Posix.repo (lit "vvrelease-0-gabc123") in
  let soiled :=
    Posix.host false Posix.repo (lit "vvrelease-5-gabc123-dirty") in
  let self := {| repo_dir := Some Posix.repo |} in
  (SemverText.parse (lit "vvrelease") = None
   /\ Py.startswith (lit "release") (lit "v") = false
   /\ Py.int (lit "0") = Some 0%Z /\ Py.int (lit "5") = Some 5%Z)
  /\ (_parse_describe SemverText.parse (lit "vvrelease-0-gabc123")
      = inr {| dirty := false; distance := 0; commit := lit "abc123";
               version := VRaw (lit "release") |}
      /\ outcome (Git_version SemverText.parse SemverText.str Posix.lib
                    clean self)
         = inr (Some (lit "release"))
      /\ lit "release" <> lit "vvrelease")
  /\ (_parse_describe SemverText.parse (lit "vvrelease-5-gabc123-dirty")
      = inr {| dirty := true; distance := 5; commit := lit "abc123";
               version := VRaw (lit "release") |}
      /\ outcome (Git_version SemverText.parse SemverText.str Posix.lib
                    soiled self)
         = inr (Some (lit "release-dev5.gabc123.d20250101"))).
Proof.
  intros clean soiled self. split; [repeat split|].
  assert (H0 : hyphen_free (lit "0")) by no_hyphen.
  assert (H5 : hyphen_free (lit "5")) by no_hyphen.
  assert (Hc : hyphen_free (lit "gabc123")) by no_hyphen.
  assert (Hne : lit "gabc123" <> lit "dirty") by discriminate.
  split.
  - destruct (@fallback_strips_every_leading_v SemverText.parse
                SemverText.str Posix.Path Posix.lib clean 2 (lit "release")
                (lit "vvrelease") (lit "0") (lit "gabc123") false 0 self
                Posix.repo
                eq_refl eq_refl eq_refl H0 Hc Hne eq_refl eq_refl eq_refl)
      as (Hp & Ho & Hd).
    split; [exact Hp|]. split; [exact Ho|].
    apply Hd; [reflexivity | lia].
  - destruct (@fallback_strips_every_leading_v SemverText.parse
                SemverText.str Posix.Path Posix.lib soiled 2 (lit "release")
                (lit "vvrelease") (lit "5") (lit "gabc123") true 5 self
                Posix.repo
                eq_refl eq_refl eq_refl H5 Hc Hne eq_refl eq_refl eq_refl)
      as (Hp & Ho & _).
    split; [exact Hp | exact Ho].
Defined.

(** ** Properties of the command line driver *)

Lemma str_eqb_eq (a b : pystr) : Main.str_eqb a b = true <-> a = b.
Proof.
  unfold Main.str_eqb. destruct (list_eq_dec ascii_dec a b); split;
    congruence.
Qed.

Lemma str_eqb_neq (a b : pystr) : Main.str_eqb a b = false <-> a <> b.
Proof.
  unfold Main.str_eqb. destruct (list_eq_dec ascii_dec a b); split;
    congruence.
Qed.

Lemma str_in_In (x : pystr) (xs : list pystr) :
  Main.str_in x xs = true <-> In x xs.
Proof.
  unfold Main.str_in. rewrite existsb_exists. split.
  - intros (y & Hy & E). apply str_eqb_eq in E. now subst.
  - intros H. exists x. split; [assumption|]. now apply str_eqb_eq.
Qed.

Lemma setitem_same (env : Main.Environ) (key value : pystr) :
  Main.setitem env key value key = Some value.
Proof.
  unfold Main.setitem.
  now replace (Main.str_eqb key key) with true
    by (symmetry; now apply str_eqb_eq).
Qed.

Lemma setitem_other (env : Main.Environ) (key value k : pystr) :
  k <> key -> Main.setitem env key value k = env k.
Proof.
  intros H. unfold Main.setitem.
  now replace (Main.str_eqb k key) with false
    by (symmetry; now apply str_eqb_neq).
Qed.

Lemma lookup_level_map (level : Z) :
  Main.lookup level Main.level_map
  = if (level =? Main.ERROR)%Z then Some (lit "--quiet")
    else if (level =? Main.WARNING)%Z then Some []
    else if (level =? Main.INFO)%Z then Some (lit "--verbose")
    else if (level =? Main.DEBUG)%Z then Some (lit "--debug")
    else None.
Proof. reflexivity. Qed.

Lemma get_after_setitem (env : Main.Environ) (level : Z) (spelling : pystr) :
  Main.lookup level Main.level_map = Some spelling ->
  Main.get_default_loglevel_from_environment
    (Main.setitem env Main.AUTOBUILD_LOGLEVEL spelling) = inr level.
Proof.
  rewrite lookup_level_map. unfold Main.get_default_loglevel_from_environment.
  rewrite setitem_same.
  destruct (Z.eqb_spec level Main.ERROR) as [->|_];
    [intros [= <-]; reflexivity|].
  destruct (Z.eqb_spec level Main.WARNING) as [->|_];
    [intros [= <-]; reflexivity|].
  destruct (Z.eqb_spec level Main.INFO) as [->|_];
    [intros [= <-]; reflexivity|].
  destruct (Z.eqb_spec level Main.DEBUG) as [->|_];
    [intros [= <-]; reflexivity|].
  discriminate.
Qed.

Lemma get_range (env : Main.Environ) (level : Z) :
  Main.get_default_loglevel_from_environment env = inr level ->
  In level [Main.ERROR; Main.WARNING; Main.INFO; Main.DEBUG].
Proof.
  unfold Main.get_default_loglevel_from_environment.
  destruct (Main.str_in _ _); [intros [= <-]; simpl; auto|].
  destruct (Main.str_eqb _ _); [intros [= <-]; simpl; auto|].
  destruct (Main.str_in _ _); [intros [= <-]; simpl; auto|].
  destruct (Main.str_in _ _); [intros [= <-]; simpl; auto|].
  discriminate.
Qed.

(** X10. A level that [set_recursive_loglevel] accepts is read back by
    [get_default_loglevel_from_environment]: for ERROR, WARNING, INFO and
    DEBUG the call succeeds, the logger has the level, the variable
    AUTOBUILD_LOGLEVEL says it again, and no other variable changes. *)
Theorem loglevel_round_trip (getLevelName : Z -> pystr)
        (st : Main.Process) (level : Z) :
  In level [Main.ERROR; Main.WARNING; Main.INFO; Main.DEBUG] ->
  exists st',
    Main.set_recursive_loglevel getLevelName st level = (st', inr tt)
    /\ Main.logger_level st' = level
    /\ Main.get_default_loglevel_from_environment (Main.environ st')
       = inr level
    /\ (forall k, k <> Main.AUTOBUILD_LOGLEVEL ->
                  Main.environ st' k = Main.environ st k).
Proof.
  intros H. unfold Main.set_recursive_loglevel.
  destruct (Main.lookup level Main.level_map) as [spelling|] eqn:E.
  - eexists. split; [reflexivity|]. cbn [Main.logger_level Main.environ].
    split; [reflexivity|]. split; [now apply get_after_setitem|].
    intros k Hk. now apply setitem_other.
  - exfalso. simpl in H.
    destruct H as [<-|[<-|[<-|[<-|[]]]]]; discriminate E.
Qed.

(** X11. For any other level [set_recursive_loglevel] raises
    [AutobuildError]; by then the logger has already been given the level,
    while the environment is left as it was. *)
Theorem unsupported_loglevel_raises (getLevelName : Z -> pystr)
        (st : Main.Process) (level : Z) :
  ~ In level [Main.ERROR; Main.WARNING; Main.INFO; Main.DEBUG] ->
  Main.set_recursive_loglevel getLevelName st level
  = ({| Main.environ := Main.environ st; Main.logger_level := level |},
     inl (Main.AutobuildError (lit "invalid effective log level "
                                 ++ getLevelName level))).
Proof.
  intros H. unfold Main.set_recursive_loglevel.
  rewrite lookup_level_map.
  destruct (Z.eqb_spec level Main.ERROR); [exfalso; apply H; simpl; auto|].
  destruct (Z.eqb_spec level Main.WARNING); [exfalso; apply H; simpl; auto|].
  destruct (Z.eqb_spec level Main.INFO); [exfalso; apply H; simpl; auto|].
  destruct (Z.eqb_spec level Main.DEBUG); [exfalso; apply H; simpl; auto|].
  reflexivity.
Qed.

(** X12. Whatever level the environment yields can be set again: the
    getter returns only ERROR, WARNING, INFO or DEBUG, the setter accepts
    it, and afterwards the getter returns the same level, now from one of
    the spellings [--quiet], the empty text, [--verbose], [--debug]. *)
Theorem environment_loglevel_is_stable (getLevelName : Z -> pystr)
        (st : Main.Process) (level : Z) :
  Main.get_default_loglevel_from_environment (Main.environ st) = inr level ->
  exists st',
    Main.set_recursive_loglevel getLevelName st level = (st', inr tt)
    /\ Main.get_default_loglevel_from_environment (Main.environ st')
       = inr level
    /\ exists spelling,
         Main.environ st' Main.AUTOBUILD_LOGLEVEL = Some spelling
         /\ In spelling [lit "--quiet"; []; lit "--verbose"; lit "--debug"].
Proof.
  intros H. apply get_range in H.
  unfold Main.set_recursive_loglevel.
  destruct (Main.lookup level Main.level_map) as [spelling|] eqn:E.
  - eexists. split; [reflexivity|]. cbn [Main.environ].
    split; [now apply get_after_setitem|].
    exists spelling. split; [apply setitem_same|].
    simpl in H. destruct H as [<-|[<-|[<-|[<-|[]]]]];
      injection E as <-; simpl; auto.
  - exfalso. simpl in H.
    destruct H as [<-|[<-|[<-|[<-|[]]]]]; discriminate E.
Qed.

(** X13. On a dry run the level that [Autobuild.main] sets is always
    accepted, whatever level was parsed: the environment then says
    [--debug] when debug output was asked for and [--verbose] in every
    other case, also when [--quiet] was given. *)
Theorem dry_run_loglevel (getLevelName : Z -> pystr)
        (st : Main.Process) (logging_level : Z) :
  exists st',
    Main.set_recursive_loglevel getLevelName st
      (Main.loglevel true logging_level) = (st', inr tt)
    /\ Main.environ st' Main.AUTOBUILD_LOGLEVEL
       = Some (if (logging_level =? Main.DEBUG)%Z then lit "--debug"
               else lit "--verbose")
    /\ Main.logger_level st'
       = (if (logging_level =? Main.DEBUG)%Z then Main.DEBUG else Main.INFO).
Proof.
  unfold Main.loglevel. cbn [andb].
  destruct (Z.eqb_spec logging_level Main.DEBUG) as [->|_]; cbn [negb];
    (eexists; split; [reflexivity|]; split; [apply setitem_same|reflexivity]).
Qed.

Lemma filter_all (f : pystr -> bool) (l : list pystr) :
  (forall x, In x l -> f x = true) -> filter f l = l.
Proof.
  induction l as [|a l IH]; simpl; intros H; [reflexivity|].
  rewrite (H a) by auto. f_equal. apply IH. auto.
Qed.

Lemma list_remove_nodup (x : pystr) (l : list pystr) :
  NoDup l ->
  Main.list_remove x l = filter (fun f => negb (Main.str_eqb f x)) l.
Proof.
  induction 1 as [|a l Hn Hd IH]; simpl; [reflexivity|].
  destruct (Main.str_eqb a x) eqn:E; simpl.
  - apply str_eqb_eq in E. subst a. symmetry. apply filter_all.
    intros y Hy. apply negb_true_iff, str_eqb_neq. congruence.
  - now rewrite IH.
Qed.

(** X14. [listdir] hides the test tool and nothing else: when the names
    that [os.listdir] gives are distinct, as those of a directory are, the
    result is the listing without [AutobuildTool_test.py], the other names
    in their order. *)
Theorem listdir_hides_test_tool
        (os_listdir : pystr -> Main.Raised + list pystr)
        (dir : pystr) (files : list pystr) :
  os_listdir dir = inr files -> NoDup files ->
  Main.listdir os_listdir dir
  = inr (filter (fun f => negb (Main.str_eqb f (lit "AutobuildTool_test.py")))
                files)
  /\ forall out, Main.listdir os_listdir dir = inr out ->
                 ~ In (lit "AutobuildTool_test.py") out.
Proof.
  intros Hl Hn.
  assert (E : Main.listdir os_listdir dir
              = inr (filter (fun f => negb (Main.str_eqb f
                                       (lit "AutobuildTool_test.py")))
                            files)).
  { unfold Main.listdir. rewrite Hl.
    destruct (Main.str_in _ files) eqn:Ein.
    - now rewrite list_remove_nodup.
    - f_equal. symmetry. apply filter_all. intros y Hy.
      apply negb_true_iff, str_eqb_neq. intros ->.
      apply str_in_In in Hy. congruence. }
  split; [exact E|]. intros out Ho. rewrite E in Ho. injection Ho as <-.
  intros Hin. apply filter_In in Hin as [_ Hf].
  apply negb_true_iff, str_eqb_neq in Hf. now apply Hf.
Qed.

(** X15. [try_to_import_tool] never raises [ImportError]: it answers [-1]
    instead. It adds at most one module to the list, at its end, and only
    a module that imported and has the tool class; an instance is returned
    only for a module that was added and registered. When the
    registration itself raises [ImportError], [-1] is returned although
    the module stays in the list. *)
Theorem try_to_import_tool_catches_import_error
        (ToolModule Tool : Type)
        (import_module : pystr -> Main.Raised + ToolModule)
        (has_AutobuildTool : ToolModule -> bool)
        (register_tool : ToolModule -> Main.Raised + Tool)
        (tool : pystr) (tools_list : list ToolModule) :
  let r := Main.try_to_import_tool import_module has_AutobuildTool
             register_tool tool tools_list in
  snd r <> inl Main.ImportError
  /\ (fst r = tools_list
      \/ exists m, import_module (lit ".autobuild_tool_" ++ tool) = inr m
                   /\ has_AutobuildTool m = true
                   /\ fst r = tools_list ++ [m])
  /\ (forall instance, snd r = inr (Some instance) ->
        exists m, import_module (lit ".autobuild_tool_" ++ tool) = inr m
                  /\ register_tool m = inr instance
                  /\ fst r = tools_list ++ [m])
  /\ (forall m, import_module (lit ".autobuild_tool_" ++ tool) = inr m ->
                has_AutobuildTool m = true ->
                register_tool m = inl Main.ImportError ->
                r = (tools_list ++ [m], inr None)).
Proof.
  unfold Main.try_to_import_tool.
  destruct (import_module (lit ".autobuild_tool_" ++ tool)) as [e|m] eqn:Ei.
  - destruct e; cbn; repeat split; try discriminate; auto;
      intros; discriminate.
  - destruct (has_AutobuildTool m) eqn:Eh.
    + assert (Added : forall l : list ToolModule,
                 l = tools_list ++ [m] ->
                 l = tools_list
                 \/ exists m0, inr m = inr m0 :> Main.Raised + ToolModule
                               /\ has_AutobuildTool m0 = true
                               /\ l = tools_list ++ [m0])
        by (intros l ->; right; exists m; now repeat split).
      destruct (register_tool m) as [e|inst] eqn:Er.
      * destruct e; cbn; (split; [discriminate|]);
          (split; [now apply Added|]);
          (split; [intros; discriminate|]);
          intros m' [= <-] _ H; congruence.
      * cbn. split; [discriminate|]. split; [now apply Added|]. split.
        -- intros instance [= <-]. exists m. now repeat split.
        -- intros m' [= <-] _ H. congruence.
    + cbn. split; [discriminate|]. split; [now left|]. split.
      * intros; discriminate.
      * intros m' [= <-] H. congruence.
Qed.

(** X16. [Autobuild.main] tries one argument as the tool: the first that
    does not start with a hyphen. The options before it and everything
    after it play no part, so the value of an option that precedes the
    sub-command is taken for the sub-command; and when every argument
    starts with a hyphen no tool is tried at all. *)
Theorem tool_is_first_plain_argument
        (ToolModule Tool : Type)
        (import_module : pystr -> Main.Raised + ToolModule)
        (has_AutobuildTool : ToolModule -> bool)
        (register_tool : ToolModule -> Main.Raised + Tool)
        (add_arguments : Tool -> Main.Raised + unit)
        (options rest : list pystr) (arg : pystr)
        (tools_list : list ToolModule) :
  Forall (fun a => Py.startswith a (lit "-") = true) options ->
  Py.startswith arg (lit "-") = false ->
  Main.tool_to_run import_module has_AutobuildTool register_tool
    add_arguments (options ++ arg :: rest) tools_list
  = Main.tool_to_run import_module has_AutobuildTool register_tool
      add_arguments [arg] tools_list
  /\ Main.tool_to_run import_module has_AutobuildTool register_tool
       add_arguments options tools_list
     = (tools_list, inr None).
Proof.
  intros Ho Ha.
  induction Ho as [|o options Hd Ho IH]; cbn [app Main.tool_to_run].
  - rewrite Ha. cbn [negb]. split; reflexivity.
  - rewrite Hd. cbn [negb]. exact IH.
Qed.

(** ** The further properties on a concrete host *)

Lemma search_result_is_nearest_marker_witness :
  let h := Posix.host false Posix.repo (lit "1.2.3-0-gabc123") in
  let start := Posix.repo ++ [lit "src"; lit "lib"] in
  outcome (_find_repo_dir Posix.lib h start 0) = inr (Some Posix.repo)
  /\ exists j, (j < 20)%nat /\ Posix.repo = ancestor Posix.lib j start
               /\ has_marker Posix.lib h Posix.repo = true.
Proof.
  intros h start.
  assert (H : outcome (_find_repo_dir Posix.lib h start 0)
              = inr (Some Posix.repo)) by (vm_compute; reflexivity).
  split; [exact H|].
  destruct (@search_result_is_nearest_marker Posix.Path Posix.lib h start
              Posix.repo H) as (j & Hj & Hd & Hm & _).
  exists j. repeat split; assumption.
Defined.

Lemma search_finds_nearest_marker_witness :
  let h := Posix.host false Posix.repo (lit "1.2.3-0-gabc123") in
  let start := Posix.repo ++ [lit "src"; lit "lib"] in
  (search_disabled h = false
   /\ (2 < 20)%nat
   /\ has_marker Posix.lib h (ancestor Posix.lib 2 start) = true)
  /\ outcome (_find_repo_dir Posix.lib h start 0) = inr (Some Posix.repo).
Proof.
  intros h start.
  assert (Hm : has_marker Posix.lib h (ancestor Posix.lib 2 start) = true)
    by (vm_compute; reflexivity).
  split; [split; [reflexivity|]; split; [lia | exact Hm]|].
  apply (@search_finds_nearest_marker Posix.Path Posix.lib h 2 start
           eq_refl); [lia | | exact Hm].
  intros i Hi.
  do 2 (destruct i as [|i]; [split; vm_compute; reflexivity|]). lia.
Defined.

Lemma get_version_resolves_witness :
  let h := Posix.host false Posix.repo (lit "1.2.3-5-gabc123-dirty") in
  let root := lit "/srv/pkg/src" in
  let t := trace (_find_repo_dir Posix.lib h (Path_of Posix.lib root) 0) in
  let meta := {| dirty := true; distance := 5; commit := lit "abc123";
                 version := VSemver (mkSemver 1 2 3 None) |} in
  (has_cmd h (lit "git") = true
   /\ _find_repo_dir Posix.lib h (Path_of Posix.lib root) 0
      = (t, inr (Some Posix.repo))
   /\ cmd h (describe_argv Posix.lib Posix.repo)
      = inr {| stdout := lit "1.2.3-5-gabc123-dirty" |}
   /\ _parse_describe SemverText.parse (lit "1.2.3-5-gabc123-dirty")
      = inr meta)
  /\ trace (get_version SemverText.parse SemverText.str Posix.lib h root)
     = EvHasCmd (lit "git") :: t
         ++ [EvCmd (describe_argv Posix.lib Posix.repo); EvDate].
Proof.
  intros h root t meta.
  assert (Hf : _find_repo_dir Posix.lib h (Path_of Posix.lib root) 0
               = (t, inr (Some Posix.repo))) by (vm_compute; reflexivity).
  split; [repeat split; exact Hf|].
  destruct (@get_version_resolves SemverText.parse SemverText.str
              Posix.Path Posix.lib h root t Posix.repo
              {| stdout := lit "1.2.3-5-gabc123-dirty" |} meta
              eq_refl Hf eq_refl eq_refl) as (Ht & _).
  exact Ht.
Defined.

Lemma query_failure_propagates_witness :
  let h := Posix.host false Posix.repo (lit "not a descriptor") in
  let root := lit "/srv/pkg/src" in
  let t := trace (_find_repo_dir Posix.lib h (Path_of Posix.lib root) 0) in
  (has_cmd h (lit "git") = true
   /\ _find_repo_dir Posix.lib h (Path_of Posix.lib root) 0
      = (t, inr (Some Posix.repo))
   /\ _parse_describe SemverText.parse (lit "not a descriptor")
      = inl ValueError)
  /\ outcome (get_version SemverText.parse SemverText.str Posix.lib h root)
     = inl ValueError.
Proof.
  intros h root t.
  assert (Hf : _find_repo_dir Posix.lib h (Path_of Posix.lib root) 0
               = (t, inr (Some Posix.repo))) by (vm_compute; reflexivity).
  split; [repeat split; exact Hf|].
  rewrite (@query_failure_propagates SemverText.parse SemverText.str
             Posix.Path Posix.lib h root t Posix.repo ValueError
             eq_refl Hf).
  - reflexivity.
  - right. exists {| stdout := lit "not a descriptor" |}.
    split; reflexivity.
Defined.

Lemma get_version_none_means_absent_witness :
  let h := Posix.host false Posix.repo (lit "1.2.3-0-gabc123") in
  let root := lit "/home/dev/src" in
  outcome (get_version SemverText.parse SemverText.str Posix.lib h root)
  = inr None
  /\ (has_cmd h (lit "git") = false
      \/ outcome (_find_repo_dir Posix.lib h (Path_of Posix.lib root) 0)
         = inr None).
Proof.
  intros h root.
  assert (H : outcome (get_version SemverText.parse SemverText.str
                         Posix.lib h root) = inr None)
    by (vm_compute; reflexivity).
  split; [exact H|].
  exact (@get_version_none_means_absent SemverText.parse SemverText.str
           Posix.Path Posix.lib h root H).
Defined.

Lemma clean_descriptor_round_trip_witness :
  ((0 <= 5)%Z /\ hyphen_free (lit "abc123"))
  /\ _parse_describe SemverText.parse (lit "1.2.3-rc1-5-gabc123")
     = inr {| dirty := false; distance := 5; commit := lit "abc123";
              version := VSemver (mkSemver 1 2 3 (Some (lit "rc1"))) |}.
Proof.
  assert (Hh : hyphen_free (lit "abc123")) by no_hyphen.
  assert (H5 : (0 <= 5)%Z) by lia.
  split; [split; assumption|].
  exact (proj1 (@clean_descriptor_round_trip SemverText.parse
                  (lit "1.2.3-rc1") (lit "abc123") 5 H5 Hh)).
Defined.

Lemma parsed_descriptor_invariants_witness :
  let meta := {| dirty := true; distance := 7; commit := lit "0a1b2c3";
                 version := VRaw (lit "2024.10") |} in
  _parse_describe SemverText.parse (lit "v2024.10-7-g0a1b2c3-dirty")
  = inr meta
  /\ (0 <= distance meta)%Z
  /\ hyphen_free (commit meta)
  /\ Py.startswith (lit "2024.10") (lit "v") = false.
Proof.
  intros meta.
  assert (H : _parse_describe SemverText.parse
                (lit "v2024.10-7-g0a1b2c3-dirty") = inr meta)
    by (vm_compute; reflexivity).
  split; [exact H|].
  destruct (@parsed_descriptor_invariants SemverText.parse _ meta H)
    as (Hd & Hc & _ & Hv).
  split; [exact Hd|]. split; [exact Hc|].
  exact (Hv (lit "2024.10") eq_refl).
Defined.

Lemma loglevel_round_trip_witness :
  let st := {| Main.environ := Main.sample_environ;
               Main.logger_level := Main.WARNING |} in
  In Main.DEBUG [Main.ERROR; Main.WARNING; Main.INFO; Main.DEBUG]
  /\ exists st',
      Main.set_recursive_loglevel (fun _ => []) st Main.DEBUG = (st', inr tt)
      /\ Main.get_default_loglevel_from_environment (Main.environ st')
         = inr Main.DEBUG.
Proof.
  intros st.
  assert (H : In Main.DEBUG [Main.ERROR; Main.WARNING; Main.INFO; Main.DEBUG])
    by (simpl; auto).
  split; [exact H|].
  destruct (@loglevel_round_trip (fun _ => []) st Main.DEBUG H)
    as (st' & Hs & _ & Hg & _).
  exists st'. split; assumption.
Defined.

Lemma unsupported_loglevel_raises_witness :
  let st := {| Main.environ := Main.sample_environ;
               Main.logger_level := Main.WARNING |} in
  ~ In 50%Z [Main.ERROR; Main.WARNING; Main.INFO; Main.DEBUG]
  /\ Main.logger_level
       (fst (Main.set_recursive_loglevel (fun _ => lit "CRITICAL") st 50))
     = 50%Z
  /\ Main.environ
       (fst (Main.set_recursive_loglevel (fun _ => lit "CRITICAL") st 50))
       Main.AUTOBUILD_LOGLEVEL = Some (lit "-q").
Proof.
  intros st.
  assert (H : ~ In 50%Z [Main.ERROR; Main.WARNING; Main.INFO; Main.DEBUG])
    by (simpl; intros [H|[H|[H|[H|[]]]]]; discriminate H).
  split; [exact H|].
  rewrite (@unsupported_loglevel_raises (fun _ => lit "CRITICAL") st 50 H).
  split; reflexivity.
Defined.

Lemma environment_loglevel_is_stable_witness :
  let st := {| Main.environ := Main.sample_environ;
               Main.logger_level := Main.WARNING |} in
  Main.get_default_loglevel_from_environment (Main.environ st)
  = inr Main.ERROR
  /\ exists st',
      Main.set_recursive_loglevel (fun _ => []) st Main.ERROR = (st', inr tt)
      /\ Main.get_default_loglevel_from_environment (Main.environ st')
         = inr Main.ERROR.
Proof.
  intros st.
  assert (H : Main.get_default_loglevel_from_environment (Main.environ st)
              = inr Main.ERROR) by reflexivity.
  split; [exact H|].
  destruct (@environment_loglevel_is_stable (fun _ => []) st Main.ERROR H)
    as (st' & Hs & Hg & _).
  exists st'. split; assumption.
Defined.

Lemma listdir_hides_test_tool_witness :
  let files := [lit "autobuild_tool_build.py"; lit "AutobuildTool_test.py";
                lit "common.py"] in
  NoDup files
  /\ Main.listdir (fun _ => inr files) (lit "autobuild")
     = inr [lit "autobuild_tool_build.py"; lit "common.py"].
Proof.
  intros files.
  assert (Hn : NoDup files).
  { repeat constructor; simpl; intros H;
      repeat (destruct H as [H|H]; [discriminate H|]); exact H. }
  split; [exact Hn|].
  rewrite (proj1 (@listdir_hides_test_tool (fun _ => inr files)
                    (lit "autobuild") files eq_refl Hn)).
  reflexivity.
Defined.

Lemma try_to_import_tool_catches_import_error_witness :
  Main.sample_import (lit ".autobuild_tool_" ++ lit "build")
  = inr (lit "build")
  /\ Main.try_to_import_tool Main.sample_import (fun _ => true)
       (fun _ : pystr => inl Main.ImportError : Main.Raised + pystr)
       (lit "build") []
     = ([lit "build"], inr None).
Proof.
  split; [reflexivity|].
  destruct (@try_to_import_tool_catches_import_error pystr pystr
              Main.sample_import (fun _ => true)
              (fun _ : pystr => inl Main.ImportError) (lit "build") [])
    as (_ & _ & _ & H).
  exact (H (lit "build") eq_refl eq_refl eq_refl).
Defined.

Lemma tool_is_first_plain_argument_witness :
  (Forall (fun a => Py.startswith a (lit "-") = true) [lit "-p"]
   /\ Py.startswith (lit "common") (lit "-") = false)
  /\ Main.tool_to_run Main.sample_import (fun _ => true)
       (fun m : pystr => inr m) (fun _ : pystr => inr tt)
       [lit "-p"; lit "common"; lit "build"] []
     = ([], inr None)
  /\ Main.tool_to_run Main.sample_import (fun _ => true)
       (fun m : pystr => inr m) (fun _ : pystr => inr tt)
       [lit "build"] []
     = ([lit "build"], inr (Some (lit "build"))).
Proof.
  assert (Ho : Forall (fun a => Py.startswith a (lit "-") = true) [lit "-p"])
    by (repeat constructor).
  split; [split; [exact Ho | reflexivity]|].
  split; [|reflexivity].
  change [lit "-p"; lit "common"; lit "build"]
    with ([lit "-p"] ++ lit "common" :: [lit "build"]).
  rewrite (proj1 (@tool_is_first_plain_argument pystr pystr
                    Main.sample_import (fun _ => true)
                    (fun m : pystr => inr m) (fun _ : pystr => inr tt)
                    [lit "-p"] [lit "build"] (lit "common") [] Ho eq_refl)).
  reflexivity.
Defined.

Lemma accessors_run_one_command_witness :
  let h := Posix.host false Posix.repo (lit "main") in
  let self := {| repo_dir := Some Posix.repo |} in
  repo_dir self = Some Posix.repo
  /\ Git_branch Posix.lib h self
     = ([EvCmd [lit "git"; lit "-C"; lit "/srv/pkg"; lit "rev-parse";
                lit "--abbrev-ref"; lit "HEAD"]], inr (Some (lit "main"))).
Proof.
  intros h self. split; [reflexivity|].
  destruct (@accessors_run_one_command Posix.Path Posix.lib h self
              Posix.repo eq_refl) as (_ & _ & Hb & _).
  rewrite Hb. reflexivity.
Defined.

Lemma found_root_is_fixed_point_witness :
  let h := Posix.host false Posix.repo (lit "1.2.3-0-gabc123") in
  let start := Posix.repo ++ [lit "src"; lit "lib"] in
  outcome (_find_repo_dir Posix.lib h start 0) = inr (Some Posix.repo)
  /\ outcome (_find_repo_dir Posix.lib h Posix.repo 0)
     = inr (Some Posix.repo).
Proof.
  intros h start.
  assert (H : outcome (_find_repo_dir Posix.lib h start 0)
              = inr (Some Posix.repo)) by (vm_compute; reflexivity).
  split; [exact H|].
  rewrite (@found_root_is_fixed_point Posix.Path Posix.lib h start
             Posix.repo H).
  reflexivity.
Defined.

Lemma new_client_none_iff_git_missing_witness :
  let h := Posix.host false Posix.repo (lit "1.2.3-0-gabc123") in
  let root := lit "/home/dev/src" in
  let t := trace (_find_repo_dir Posix.lib h (Path_of Posix.lib root) 0) in
  _find_repo_dir Posix.lib h (Path_of Posix.lib root) 0 = (t, inr None)
  /\ new_client Posix.lib h root
     = (EvHasCmd (lit "git") :: t, inr (Some {| repo_dir := None |})).
Proof.
  intros h root t.
  assert (Hf : _find_repo_dir Posix.lib h (Path_of Posix.lib root) 0
               = (t, inr None)) by (vm_compute; reflexivity).
  split; [exact Hf|].
  rewrite (proj1 (@new_client_none_iff_git_missing Posix.Path Posix.lib h
                    root t None Hf)).
  reflexivity.
Defined.
